(** * whatsapp-api: the recipient resolver, the session state and the batch
      dispatcher of [server.js], embedded in Rocq.

    The file follows the order of [server.js]: JavaScript values and the
    string primitives the code calls, then [normalizePhoneNumber],
    [parseChatTarget], [resolveChatId], the lifecycle handlers registered by
    [initializeWhatsApp], and the HTTP handlers. The messaging client, the QR
    encoder and the file system are external: they are taken as parameters
    whose answers may depend on everything that happened before. *)

From Stdlib Require Import String Ascii List ZArith Bool Arith Lia.
Import ListNotations.
Local Open Scope string_scope.

(* ===================================================================== *)
(** ** JavaScript values *)
(* ===================================================================== *)

(** Values as [express.json()] and the client library hand them to the code.
    A JSON number is represented by an integer: the code only asks a number
    for its [typeof], its truthiness and, for [delay], its order. An object
    is the list of its own data properties in source order. *)
#[warnings="-register-all"]
Inductive JsVal : Type :=
| JUndefined
| JNull
| JBool (b : bool)
| JNum (z : Z)
| JStr (s : string)
| JArr (items : list JsVal)
| JObj (fields : list (string * JsVal)).

(** [typeof v]. *)
Definition typeof (v : JsVal) : string :=
  match v with
  | JUndefined => "undefined"
  | JNull => "object"
  | JBool _ => "boolean"
  | JNum _ => "number"
  | JStr _ => "string"
  | JArr _ => "object"
  | JObj _ => "object"
  end.

(** ToBoolean: what [if (v)], [!v], [a || b] and [a && b] test. *)
Definition truthy (v : JsVal) : bool :=
  match v with
  | JUndefined | JNull => false
  | JBool b => b
  | JNum z => negb (z =? 0)%Z
  | JStr s => negb (s =? "")
  | JArr _ | JObj _ => true
  end.

(** [a || b]. *)
Definition jsOr (a b : JsVal) : JsVal := if truthy a then a else b.

(** The value of an own data property; as in [JSON.parse], the last of
    several bindings of one key is the one that counts. *)
Definition lookupField (k : string) (fields : list (string * JsVal)) : JsVal :=
  fold_left (fun found kv => if fst kv =? k then snd kv else found)
            fields JUndefined.

(** A computation either returns or throws. What is thrown is an error
    object, represented by its [message] property, the only thing the
    handlers read of it. A rejection with [null] or [undefined], on which
    reading [message] would itself throw inside the [catch] blocks, is
    outside this model: every statement below about a call that throws is
    about a call that throws an error object. *)
Inductive Outcome (A : Type) : Type :=
| Returns (a : A)
| Throws (message : JsVal).
Arguments Returns {A} a.
Arguments Throws {A} message.

(** [v.k] for the property names the code reads ([number], [message], [id],
    [_serialized]): a TypeError on [null] and [undefined], the own property
    of an object, and [undefined] on every other value. *)
Definition member (v : JsVal) (k : string) : Outcome JsVal :=
  match v with
  | JUndefined =>
      Throws (JStr ("Cannot read properties of undefined (reading '" ++ k ++ "')"))
  | JNull =>
      Throws (JStr ("Cannot read properties of null (reading '" ++ k ++ "')"))
  | JObj fields => Returns (lookupField k fields)
  | _ => Returns JUndefined
  end.

(** [v?.k]. *)
Definition optMember (v : JsVal) (k : string) : JsVal :=
  match v with
  | JObj fields => lookupField k fields
  | _ => JUndefined
  end.

(* ===================================================================== *)
(** ** String primitives *)
(* ===================================================================== *)

(** Strings are sequences of code units below 256. *)

Definition isDigit (c : ascii) : bool :=
  ((48 <=? nat_of_ascii c) && (nat_of_ascii c <=? 57))%nat.

(** White space and line terminators, as [String.prototype.trim] sees them
    in this range: TAB, LF, VT, FF, CR, SPACE and NBSP. *)
Definition isWhiteSpace (c : ascii) : bool :=
  let n := nat_of_ascii c in
  (((9 <=? n) && (n <=? 13)) || (n =? 32) || (n =? 160))%nat.

Fixpoint filterString (p : ascii -> bool) (s : string) : string :=
  match s with
  | EmptyString => EmptyString
  | String c r => if p c then String c (filterString p r) else filterString p r
  end.

Fixpoint forallString (p : ascii -> bool) (s : string) : bool :=
  match s with
  | EmptyString => true
  | String c r => p c && forallString p r
  end.

Fixpoint trimStart (s : string) : string :=
  match s with
  | EmptyString => EmptyString
  | String c r => if isWhiteSpace c then trimStart r else s
  end.

Fixpoint trimEnd (s : string) : string :=
  match s with
  | EmptyString => EmptyString
  | String c r =>
      match trimEnd r with
      | EmptyString => if isWhiteSpace c then EmptyString else String c EmptyString
      | r' => String c r'
      end
  end.

(** [s.trim()]. *)
Definition trim (s : string) : string := trimEnd (trimStart s).

(** [s.includes(c)] for a one-character needle. *)
Fixpoint includes (c : ascii) (s : string) : bool :=
  match s with
  | EmptyString => false
  | String d r => Ascii.eqb d c || includes c r
  end.

(** [s.endsWith(suffix)]. *)
Fixpoint endsWith (suffix s : string) : bool :=
  (s =? suffix) ||
  match s with
  | EmptyString => false
  | String _ r => endsWith suffix r
  end.

Fixpoint dropChars (n : nat) (s : string) : string :=
  match n, s with
  | S n', String _ r => dropChars n' r
  | _, _ => s
  end.

(** [s.replace(pattern, replacement)] with a string pattern: the first
    occurrence only. *)
Fixpoint replaceFirst (pattern replacement s : string) : string :=
  if prefix pattern s then replacement ++ dropChars (String.length pattern) s
  else match s with
       | EmptyString => EmptyString
       | String c r => String c (replaceFirst pattern replacement r)
       end.

(* ===================================================================== *)
(** ** [normalizePhoneNumber] and [parseChatTarget] *)
(* ===================================================================== *)

(** [input.replace(/\D/g, '')], and [''] for a value that is not a string. *)
Definition normalizePhoneNumber (input : JsVal) : string :=
  match input with
  | JStr s => filterString isDigit s
  | _ => ""
  end.

(** The object [parseChatTarget] and [resolveChatId] return when they do not
    return an error. [isDirectUser] is absent from what [resolveChatId]
    builds after a lookup. *)
Record Target : Type := mkTarget {
  chatId : JsVal;
  normalizedNumber : string;
  isDirectUser : option bool
}.

(** [{ error: ... }] on the left, a target on the right. Every error text
    the code builds is a non-empty string, so [if (parsed.error)] is the
    test for the left side. *)
Definition Parsed : Type := (string + Target)%type.

Definition parseChatTarget (input : JsVal) : Parsed :=
  match input with
  | JStr s =>
      let raw := trim s in
      if raw =? "" then inl "Nomor tujuan tidak boleh kosong"
      else if includes "@"%char raw then
        inr (mkTarget (JStr raw) raw (Some (endsWith "@c.us" raw)))
      else
        let normalizedNumber := normalizePhoneNumber (JStr raw) in
        if normalizedNumber =? "" then inl "Format nomor tidak valid"
        else inr (mkTarget (JStr (normalizedNumber ++ "@c.us")) normalizedNumber (Some true))
  | _ => inl "Nomor tujuan harus berupa string"
  end.



(* ===================================================================== *)
(** ** The server's state and its external collaborators *)
(* ===================================================================== *)

(** What the handlers do to the outside, in the order they do it. *)
Inductive Event : Type :=
| EvGetNumberId (number : string)           (* client.getNumberId(number) *)
| EvSendMessage (chatId message : JsVal)    (* client.sendMessage(chatId, message) *)
| EvSleep (ms : Z)                          (* await setTimeout(resolve, ms) *)
| EvLogout                                  (* client.logout() *)
| EvDestroy                                 (* client.destroy() *)
| EvRmSession                               (* fs.rmSync(sessionPath, ...) *)
| EvScheduleInit (ms : Z).                  (* setTimeout(initializeWhatsApp, ms) *)

(** The module-level variables [qrCodeData], [client] (is there a client
    object) and [clientReady], the session folder [.wwebjs_auth] on disk, and
    the events so far, oldest first. *)
Record World : Type := mkWorld {
  qrCodeData : option string;
  client : bool;
  clientReady : bool;
  sessionFolder : bool;
  history : list Event
}.

(** The collaborators. An answer may depend on the whole history, so that
    the same call can succeed once and fail the next time. *)
Record Externals : Type := mkExternals {
  getNumberId : list Event -> string -> Outcome JsVal;
  sendMessage : list Event -> JsVal -> JsVal -> Outcome JsVal;
  logout : list Event -> Outcome unit;
  destroy : list Event -> Outcome unit;
  rmSync : list Event -> Outcome unit;
  toDataURL : string -> Outcome string
}.

(** Code that reads and writes the world and may throw. *)
Definition M (A : Type) : Type := World -> Outcome A * World.

Definition ret {A} (a : A) : M A := fun w => (Returns a, w).

Definition bind {A B} (m : M A) (k : A -> M B) : M B :=
  fun w =>
    match m w with
    | (Returns a, w') => k a w'
    | (Throws e, w') => (Throws e, w')
    end.

(** [try { m } catch (error) { handler(error.message) }]: the world keeps
    what [m] did before it threw. *)
Definition tryCatch {A} (m : M A) (handler : JsVal -> M A) : M A :=
  fun w =>
    match m w with
    | (Returns a, w') => (Returns a, w')
    | (Throws e, w') => handler e w'
    end.

Definition lift {A} (o : Outcome A) : M A := fun w => (o, w).

Declare Scope js_scope.
Delimit Scope js_scope with js.
Notation "x <- m ;; k" := (bind m (fun x => k))
  (at level 61, m at next level, right associativity) : js_scope.
Notation "m ;;; k" := (bind m (fun _ => k))
  (at level 61, right associativity) : js_scope.
Local Open Scope js_scope.

Definition emit (e : Event) (w : World) : World :=
  mkWorld (qrCodeData w) (client w) (clientReady w) (sessionFolder w)
          (history w ++ [e]).

Definition setClientReady (b : bool) (w : World) : World :=
  mkWorld (qrCodeData w) (client w) b (sessionFolder w) (history w).

Definition setQrCodeData (q : option string) (w : World) : World :=
  mkWorld q (client w) (clientReady w) (sessionFolder w) (history w).

Definition setSessionFolder (b : bool) (w : World) : World :=
  mkWorld (qrCodeData w) (client w) (clientReady w) b (history w).

(** The events a run added to the history. *)
Definition eventsSince (w w' : World) : list Event :=
  skipn (length (history w)) (history w').

Section Server.

Variable ext : Externals.

(** A call out: the collaborator answers from the history so far, and the
    call joins the history. *)
Definition call {A} (e : Event) (answer : list Event -> Outcome A) : M A :=
  fun w => (answer (history w), emit e w).

Definition sleep (ms : Z) : M unit := fun w => (Returns tt, emit (EvSleep ms) w).

(* ===================================================================== *)
(** ** [resolveChatId] *)
(* ===================================================================== *)

Definition notRegistered (normalizedNumber : string) : string :=
  "Nomor " ++ normalizedNumber ++ " tidak terdaftar di WhatsApp".

Definition resolveChatId (input : JsVal) : M Parsed :=
  match parseChatTarget input with
  | inl error => ret (inl error)
  | inr parsed =>
      match isDirectUser parsed with
      | Some true =>
          let normalizedNumber :=
            normalizePhoneNumber
              (JStr (replaceFirst "@c.us" "" (normalizedNumber parsed))) in
          if normalizedNumber =? "" then ret (inl "Format nomor tidak valid")
          else
            tryCatch
              (numberId <- call (EvGetNumberId normalizedNumber)
                                (fun h => getNumberId ext h normalizedNumber) ;;
               let serialized :=
                 if typeof numberId =? "string" then numberId
                 else optMember numberId "_serialized" in
               if negb (truthy serialized)
               then ret (inl (notRegistered normalizedNumber))
               else ret (inr (mkTarget serialized normalizedNumber None)))
              (fun _ =>
                 ret (inr (mkTarget (JStr (normalizedNumber ++ "@c.us"))
                                    normalizedNumber None)))
      | _ => ret (inr parsed)
      end
  end.

(* ===================================================================== *)
(** ** Lifecycle handlers of [initializeWhatsApp] *)
(* ===================================================================== *)

Inductive ClientEvent : Type :=
| LoadingScreen
| Qr (qr : string)
| Ready
| Authenticated
| AuthFailure
| Disconnected
| ChangeState.

(** One handler run to its end. For the [qr] handler, which is [async], this
    is the whole handler with nothing in between its start and the
    assignment after [await qrcode.toDataURL(qr)]; [onTurn] below takes the
    two halves apart. *)
Definition onClientEvent (ev : ClientEvent) (w : World) : World :=
  match ev with
  | Qr qr =>
      match toDataURL ext qr with
      | Returns url => setQrCodeData (Some url) w
      | Throws _ => setQrCodeData None w
      end
  | Ready => setQrCodeData None (setClientReady true w)
  | AuthFailure => setQrCodeData None (setClientReady false w)
  | Disconnected => setQrCodeData None (setClientReady false w)
  | LoadingScreen | Authenticated | ChangeState => w
  end.

(* ===================================================================== *)
(** ** HTTP handlers *)
(* ===================================================================== *)

(** One entry of [results] in the batch response. *)
Record ItemResult : Type := mkItemResult {
  number : JsVal;
  success : bool;
  messageId : JsVal;
  error : JsVal
}.

Inductive Body : Type :=
| BodyFailure (message : string) (error : option JsVal)
| BodySent (messageId : JsVal) (to : string)
| BodyBatch (total sent failed : nat) (results : list ItemResult)
| BodyDone (message : string).

Record Response : Type := mkResponse { status : nat; body : Body }.

Definition notConnected : string :=
  "WhatsApp belum terhubung. Silakan scan QR Code terlebih dahulu.".

(** The outer [try { ... } catch (error) { res.status(500)... }] of a
    handler. *)
Definition respond (m : M Response) (failure : string) (w : World)
  : Response * World :=
  match m w with
  | (Returns r, w') => (r, w')
  | (Throws e, w') => (mkResponse 500 (BodyFailure failure (Some e)), w')
  end.

(** [result.id._serialized]. *)
Definition serializedId (result : JsVal) : M JsVal :=
  id <- lift (member result "id") ;;
  lift (member id "_serialized").

(** POST /api/send-message with [req.body = { number, message }]. *)
Definition postSendMessage (number message : JsVal) (w : World)
  : Response * World :=
  if negb (clientReady w) then
    (mkResponse 400 (BodyFailure notConnected None), w)
  else if negb (truthy number) || negb (truthy message) then
    (mkResponse 400 (BodyFailure "Parameter number dan message harus diisi" None), w)
  else
    respond
      (target <- resolveChatId number ;;
       match target with
       | inl error => ret (mkResponse 400 (BodyFailure error None))
       | inr target =>
           result <- call (EvSendMessage (chatId target) message)
                          (fun h => sendMessage ext h (chatId target) message) ;;
           id <- serializedId result ;;
           ret (mkResponse 200 (BodySent id (normalizedNumber target)))
       end)
      "Gagal mengirim pesan" w.

(** [Math.max(100, Math.min(delay || 1000, 10000))] after the destructuring
    default [delay = 1000]. [delay] is absent or, as the API schema declares
    it, an integer. *)
Definition delayMs (delay : option Z) : Z :=
  (let delay := match delay with None => 1000 | Some d => d end in
   let requested := if delay =? 0 then 1000 else delay in
   Z.max 100 (Z.min requested 10000))%Z.

(** The locals [results], [sentCount] and [failedCount] of the batch
    handler. *)
Record Tally : Type := mkTally {
  results : list ItemResult;
  sentCount : nat;
  failedCount : nat
}.

(** [results.push({number, success: false, messageId: null, error});
    failedCount++]. *)
Definition pushFailed (number error : JsVal) (t : Tally) : Tally :=
  mkTally (results t ++ [mkItemResult number false JNull error])
          (sentCount t) (S (failedCount t)).

(** [results.push({number, success: true, messageId, error: null});
    sentCount++]. *)
Definition pushSent (number messageId : JsVal) (t : Tally) : Tally :=
  mkTally (results t ++ [mkItemResult number true messageId JNull])
          (S (sentCount t)) (failedCount t).

(** The inner [try { ... } catch (error) { ... }] of the loop body, for item
    [i] of [len]. Nothing in the [try] can throw after its [push], so the
    [catch] starts from the tally the item started with. *)
Definition attemptSend (len i : nat) (delayMs : Z)
    (targetNumber targetMessage : JsVal) (t : Tally) : M Tally :=
  tryCatch
    (target <- resolveChatId targetNumber ;;
     match target with
     | inl error => ret (pushFailed targetNumber (JStr error) t)
     | inr target =>
         result <- call (EvSendMessage (chatId target) targetMessage)
                        (fun h => sendMessage ext h (chatId target) targetMessage) ;;
         id <- serializedId result ;;
         let t' := pushSent (JStr (normalizedNumber target)) id t in
         if (i <? len - 1)%nat then (sleep delayMs ;;; ret t') else ret t'
     end)
    (fun message => ret (pushFailed targetNumber message t)).

(** [typeof recipient === 'object' && recipient.number && recipient.message]
    as a test. *)
Definition isPair (recipient : JsVal) : M bool :=
  if typeof recipient =? "object" then
    number <- lift (member recipient "number") ;;
    if truthy number then
      message <- lift (member recipient "message") ;;
      ret (truthy message)
    else ret false
  else ret false.

(** One turn of [for (let i = 0; i < recipients.length; i++)]. *)
Definition batchItem (len i : nat) (message : JsVal) (delayMs : Z)
    (recipient : JsVal) (t : Tally) : M Tally :=
  if typeof recipient =? "string" then
    attemptSend len i delayMs recipient message t
  else
    pair <- isPair recipient ;;
    if pair then
      targetNumber <- lift (member recipient "number") ;;
      targetMessage <- lift (member recipient "message") ;;
      attemptSend len i delayMs targetNumber targetMessage t
    else
      ret (pushFailed
             (jsOr (jsOr (optMember recipient "number") recipient) (JStr "unknown"))
             (JStr "Format recipient tidak valid") t).

(** The loop from index [i] on; [rest] is [recipients.slice(i)]. *)
Fixpoint batchLoop (len i : nat) (message : JsVal) (delayMs : Z)
    (rest : list JsVal) (t : Tally) : M Tally :=
  match rest with
  | [] => ret t
  | recipient :: rest' =>
      t' <- batchItem len i message delayMs recipient t ;;
      batchLoop len (S i) message delayMs rest' t'
  end.

Definition isString (item : JsVal) : bool := typeof item =? "string".

(** POST /api/send-batch-message with
    [req.body = { recipients, message, delay }]. *)
Definition postSendBatchMessage (recipients message : JsVal) (delay : option Z)
    (w : World) : Response * World :=
  if negb (clientReady w) then
    (mkResponse 400 (BodyFailure notConnected None), w)
  else
    match recipients with
    | JArr (first :: others) =>
        let items := first :: others in
        let isStringArray := forallb isString items in
        if isStringArray && negb (truthy message) then
          (mkResponse 400
             (BodyFailure
                "Parameter message harus diisi jika recipients adalah array of strings"
                None), w)
        else
          respond
            (t <- batchLoop (length items) 0 message (delayMs delay) items
                            (mkTally [] 0 0) ;;
             ret (mkResponse 200
                    (BodyBatch (length items) (sentCount t) (failedCount t)
                               (results t))))
            "Gagal mengirim batch message" w
    | _ =>
        (mkResponse 400
           (BodyFailure
              "Parameter recipients harus berupa array dan tidak boleh kosong"
              None), w)
    end.

Definition scheduleInit (ms : Z) : M unit :=
  fun w => (Returns tt, emit (EvScheduleInit ms) w).

(** POST /api/logout. *)
Definition postLogout (w : World) : Response * World :=
  respond
    ((if client w then
        call EvLogout (logout ext) ;;;
        call EvDestroy (destroy ext) ;;;
        (fun w => (Returns tt, setQrCodeData None (setClientReady false w))) ;;;
        scheduleInit 2000%Z
      else ret tt) ;;;
     ret (mkResponse 200
            (BodyDone "Logout berhasil. QR Code baru akan tersedia dalam beberapa saat.")))
    "Gagal logout" w.

(** POST /api/clear-session. *)
Definition postClearSession (w : World) : Response * World :=
  respond
    ((if client w then
        tryCatch (call EvDestroy (destroy ext)) (fun _ => ret tt)
      else ret tt) ;;;
     (fun w => (Returns tt, setQrCodeData None (setClientReady false w))) ;;;
     (fun w =>
        if sessionFolder w then
          match rmSync ext (history w) with
          | Returns _ => (Returns tt, setSessionFolder false (emit EvRmSession w))
          | Throws e => (Throws e, emit EvRmSession w)
          end
        else (Returns tt, w)) ;;;
     scheduleInit 2000%Z ;;;
     ret (mkResponse 200
            (BodyDone "Session berhasil dihapus. QR Code baru akan tersedia dalam beberapa saat.")))
    "Gagal menghapus session" w.

End Server.

(* ===================================================================== *)
(** ** Collaborators used in the examples *)
(* ===================================================================== *)

Definition sendOk : list Event -> JsVal -> JsVal -> Outcome JsVal :=
  fun _ _ _ => Returns (JObj [("id", JObj [("_serialized", JStr "3EB0C767F26EE5B6D123")])]).

(** Every number is registered and every call succeeds. *)
Definition registeredClient : Externals :=
  mkExternals
    (fun _ n => Returns (JObj [("_serialized", JStr (n ++ "@c.us"))]))
    sendOk
    (fun _ => Returns tt) (fun _ => Returns tt) (fun _ => Returns tt)
    (fun qr => Returns ("data:image/png;base64," ++ qr)).

(** The lookup and the teardown throw. *)
Definition flakyClient : Externals :=
  mkExternals
    (fun _ _ => Throws (JStr "Evaluation failed"))
    sendOk
    (fun _ => Returns tt) (fun _ => Throws (JStr "Target closed"))
    (fun _ => Returns tt)
    (fun _ => Throws (JStr "encoding failed")).

(** No number is registered. *)
Definition unregisteredClient : Externals :=
  mkExternals
    (fun _ _ => Returns JNull)
    sendOk
    (fun _ => Returns tt) (fun _ => Returns tt) (fun _ => Returns tt)
    (fun qr => Returns ("data:image/png;base64," ++ qr)).

(** The process just started, and the same once the client is ready. *)
Definition startWorld : World := mkWorld None true false true [].
Definition readyWorld : World := mkWorld None true true true [].

(** The number [resolveChatId] looks up for a direct user. *)
Definition lookupNumber (parsed : Target) : string :=
  normalizePhoneNumber (JStr (replaceFirst "@c.us" "" (normalizedNumber parsed))).

(* ===================================================================== *)
(** ** The session phase of the specification *)
(* ===================================================================== *)

(** The code keeps no phase: it keeps [clientReady] and [qrCodeData]. The
    phase below is the one of the specification's state machine, for the
    comparison with what the handlers do to [qrCodeData]. *)
Module Spec.

Inductive Phase : Type :=
| uninitialized
| awaiting_pairing
| authenticated
| ready
| disconnected
| auth_failed.


(** [disconnected|auth_failed -> uninitialized] on an explicit reset. *)
Definition reset (p : Phase) : Phase :=
  match p with
  | disconnected | auth_failed => uninitialized
  | _ => p
  end.


End Spec.

(** The handlers run on a sequence of signals, oldest first. *)
Definition runLifecycle (ext : Externals) (evs : list ClientEvent) (w : World)
  : World :=
  fold_left (fun w ev => onClientEvent ext ev w) evs w.

(** One turn of the event loop, as far as the lifecycle handlers go. A
    signal arrives and its handler runs up to its first [await]: for [qr]
    this only starts the encoding, the other handlers have no [await] and
    run to their end. Or the encoding of a pairing code settles and the
    [qr] handler that waited for it resumes, with the assignment of the
    [try] or of the [catch]. Other turns may lie between the arrival of a
    pairing code and the settling of its encoding. *)
Inductive Turn : Type :=
| Arrives (ev : ClientEvent)
| Settles (qr : string).

Definition onTurn (ext : Externals) (t : Turn) (w : World) : World :=
  match t with
  | Arrives (Qr _) => w
  | Arrives ev => onClientEvent ext ev w
  | Settles qr => onClientEvent ext (Qr qr) w
  end.

Definition runTurns (ext : Externals) (ts : list Turn) (w : World) : World :=
  fold_left (fun w t => onTurn ext t w) ts w.






(* ===================================================================== *)
(** ** Describing a batch run *)
(* ===================================================================== *)

(** The world after the events [evs] and nothing else. *)
Definition extend (evs : list Event) (w : World) : World :=
  mkWorld (qrCodeData w) (client w) (clientReady w) (sessionFolder w)
          (history w ++ evs).

(** The pauses among some events. *)
Definition sleepsOf (evs : list Event) : list Z :=
  flat_map (fun e => match e with EvSleep ms => [ms] | _ => [] end) evs.

(** [results.push(r)] with the counter that goes with it; [pushSent] and
    [pushFailed] are its two instances. *)
Definition push (r : ItemResult) (t : Tally) : Tally :=
  mkTally (results t ++ [r])
          (if success r then S (sentCount t) else sentCount t)
          (if success r then failedCount t else S (failedCount t)).

Definition pushAll (rs : list ItemResult) (t : Tally) : Tally :=
  fold_left (fun t r => push r t) rs t.

(** Item [i] of the loop, started in world [w], appends the result [r] and
    adds the events [seg], whatever the tally was. *)
Definition itemRun (ext : Externals) (len : nat) (message : JsVal) (d : Z)
    (i : nat) (recipient : JsVal) (w : World) (r : ItemResult)
    (seg : list Event) : Prop :=
  forall t, batchItem ext len i message d recipient t w
            = (Returns (push r t), extend seg w).

(** A run of the loop from index [i] over [rest]: one result and one segment
    of events for each item, each item starting where the one before it
    stopped. *)
Inductive dispatched (ext : Externals) (len : nat) (message : JsVal) (d : Z)
  : nat -> list JsVal -> World -> list ItemResult -> list (list Event) -> Prop :=
| dispatched_nil i w : dispatched ext len message d i [] w [] []
| dispatched_cons i recipient rest w r seg rs segs :
    itemRun ext len message d i recipient w r seg ->
    dispatched ext len message d (S i) rest (extend seg w) rs segs ->
    dispatched ext len message d i (recipient :: rest) w (r :: rs) (seg :: segs).

(** The events of one item obey the pacing rule of the code: a pause of [d]
    closes the segment of an item that was sent and is not the last one, and
    there is no pause anywhere else. *)
Definition paced (d : Z) (isLast : bool) (r : ItemResult) (seg : list Event)
  : Prop :=
  if success r && negb isLast
  then exists calls, seg = (calls ++ [EvSleep d])%list /\ sleepsOf calls = []
  else sleepsOf seg = [].

(** The pacing rule with the loop's own test [i < recipients.length - 1]. *)
Definition pacedAt (len i : nat) (d : Z) (r : ItemResult) (seg : list Event)
  : Prop :=
  paced d (negb (i <? len - 1)%nat) r seg.

Fixpoint pacedAll (d : Z) (rs : list ItemResult) (segs : list (list Event))
  : Prop :=
  match rs, segs with
  | [], [] => True
  | r :: rs', seg :: segs' =>
      paced d (match rs' with [] => true | _ => false end) r seg
      /\ pacedAll d rs' segs'
  | _, _ => False
  end.



(* ===================================================================== *)
(** ** GET /api/status and GET /api/qrcode *)
(* ===================================================================== *)

(** [!!qrCodeData]: there is a QR code and it is not the empty string. *)
Definition hasQr (w : World) : bool :=
  match qrCodeData w with
  | Some url => negb (url =? "")
  | None => false
  end.

(** The JSON of GET /api/status. *)
Record StatusAnswer : Type := mkStatusAnswer {
  statusText : string;
  connected : bool;
  statusMessage : string;
  hasQrCode : bool
}.

Definition getStatus (w : World) : StatusAnswer :=
  mkStatusAnswer
    (if clientReady w then "connected" else "disconnected")
    (clientReady w)
    (if clientReady w then "WhatsApp sudah terhubung" else notConnected)
    (hasQr w).

(** [s.includes(needle)] for a string needle. *)
Fixpoint includesString (needle s : string) : bool :=
  prefix needle s ||
  match s with
  | EmptyString => false
  | String _ r => includesString needle r
  end.

(** [s.replace(/^p/, '')] for a literal [p]: the prefix is dropped when it
    is there. *)
Definition stripPrefix (p s : string) : string :=
  if prefix p s then dropChars (String.length p) s else s.

(** The four answers of GET /api/qrcode: the 200 that says the client is
    already connected, the 404 that says there is no code yet, the 200 that
    carries the data URL as JSON, and the PNG, given by the base64 text that
    goes to [Buffer.from(base64Data, 'base64')]. *)
Inductive QrAnswer : Type :=
| QrConnected
| QrNotReady
| QrJson (qrCode : string)
| QrImage (base64Data : string).

(** GET /api/qrcode with the request's [Accept] header, if it has one. *)
Definition getQrcode (accept : option string) (w : World) : QrAnswer :=
  if clientReady w then QrConnected
  else if negb (hasQr w) then QrNotReady
  else
    match qrCodeData w with
    | None => QrNotReady
    | Some url =>
        let wantsJson :=
          match accept with
          | Some a => negb (a =? "") && includesString "application/json" a
          | None => false
          end in
        if wantsJson then QrJson url
        else QrImage (stripPrefix "data:image/png;base64," url)
    end.

(* ===================================================================== *)
(** ** Measures of a run *)
(* ===================================================================== *)

(** The number of [client.sendMessage] calls among some events. *)
Definition sendsOf (evs : list Event) : nat :=
  length (filter (fun e => match e with EvSendMessage _ _ => true | _ => false end)
                 evs).

(** The recipient test of the loop on a value that is not [null], where its
    property reads cannot throw. *)
Definition isPairValue (recipient : JsVal) : bool :=
  (typeof recipient =? "object")
  && truthy (optMember recipient "number")
  && truthy (optMember recipient "message").

(** The result the loop records for a recipient of invalid format. *)
Definition invalidFormat (recipient : JsVal) : ItemResult :=
  mkItemResult
    (jsOr (jsOr (optMember recipient "number") recipient) (JStr "unknown"))
    false JNull (JStr "Format recipient tidak valid").

(** A result is well formed: a sent one carries no error, a failed one no
    message id. *)
Definition wellFormed (r : ItemResult) : bool :=
  if success r
  then match error r with JNull => true | _ => false end
  else match messageId r with JNull => true | _ => false end.

(** What the shape of one item's result and events can be. *)
Definition itemShape (targetNumber : JsVal) (r : ItemResult) (seg : list Event)
  : Prop :=
  wellFormed r = true
  /\ sendsOf seg <= 1
  /\ (success r = true -> sendsOf seg = 1)
  /\ (success r = false -> number r = targetNumber).

(** The signals whose handlers assign [clientReady]. *)
Definition assignsReady (ev : ClientEvent) : bool :=
  match ev with
  | Ready | AuthFailure | Disconnected => true
  | _ => false
  end.

(* ===================================================================== *)
(** ** Worked examples *)
(* ===================================================================== *)

Example parse_flexible :
  parseChatTarget (JStr "+62 812-3456-7890")
  = inr (mkTarget (JStr "6281234567890@c.us") "6281234567890" (Some true)).
Proof. reflexivity. Qed.

Example parse_group :
  parseChatTarget (JStr " 12345-678@g.us ")
  = inr (mkTarget (JStr "12345-678@g.us") "12345-678@g.us" (Some false)).
Proof. reflexivity. Qed.

Example resolve_registered :
  resolveChatId registeredClient (JStr "+62 812-3456-7890") readyWorld
  = (Returns (inr (mkTarget (JStr "6281234567890@c.us") "6281234567890" None)),
     emit (EvGetNumberId "6281234567890") readyWorld).
Proof. reflexivity. Qed.

Example batch_three :
  postSendBatchMessage registeredClient
    (JArr [JStr "628111"; JObj []; JStr "628222"]) (JStr "hi") (Some 50%Z)
    readyWorld
  = (mkResponse 200
       (BodyBatch 3 2 1
          [ mkItemResult (JStr "628111") true (JStr "3EB0C767F26EE5B6D123") JNull;
            mkItemResult (JObj []) false JNull (JStr "Format recipient tidak valid");
            mkItemResult (JStr "628222") true (JStr "3EB0C767F26EE5B6D123") JNull ]),
     mkWorld None true true true
       [ EvGetNumberId "628111";
         EvSendMessage (JStr "628111@c.us") (JStr "hi");
         EvSleep 100;
         EvGetNumberId "628222";
         EvSendMessage (JStr "628222@c.us") (JStr "hi") ]).
Proof. reflexivity. Qed.

(* ===================================================================== *)
(** ** Facts about the string primitives *)
(* ===================================================================== *)

Lemma digit_not_space c : isDigit c = true -> isWhiteSpace c = false.
Proof.
  unfold isDigit, isWhiteSpace. intros H.
  apply andb_true_iff in H. destruct H as [H1 H2].
  apply Nat.leb_le in H1. apply Nat.leb_le in H2.
  repeat (apply orb_false_iff; split).
  - apply andb_false_iff. right. apply Nat.leb_gt. lia.
  - apply Nat.eqb_neq. lia.
  - apply Nat.eqb_neq. lia.
Qed.

Lemma digit_not_at c : isDigit c = true -> Ascii.eqb c "@" = false.
Proof.
  intros H. destruct (Ascii.eqb_spec c "@"%char) as [->|]; [discriminate H | reflexivity].
Qed.

Lemma trimEnd_keeps_head c r :
  isWhiteSpace c = false -> trimEnd (String c r) = String c (trimEnd r).
Proof.
  intros Hc. simpl. destruct (trimEnd r); [rewrite Hc|]; reflexivity.
Qed.

Lemma trimEnd_idem s : trimEnd (trimEnd s) = trimEnd s.
Proof.
  induction s as [|c r IH]; [reflexivity|].
  simpl. destruct (trimEnd r) as [|c' r'] eqn:E.
  - destruct (isWhiteSpace c) eqn:Hc; [reflexivity|].
    simpl. rewrite Hc. reflexivity.
  - change (trimEnd (String c (String c' r'))) with
      (match trimEnd (String c' r') with
       | EmptyString => if isWhiteSpace c then EmptyString else String c EmptyString
       | x => String c x
       end).
    rewrite IH. reflexivity.
Qed.

Lemma trimStart_cases s :
  trimStart s = "" \/
  exists c r, trimStart s = String c r /\ isWhiteSpace c = false.
Proof.
  induction s as [|c r IH]; [left; reflexivity|].
  simpl. destruct (isWhiteSpace c) eqn:Hc; [exact IH|].
  right. exists c, r. split; [reflexivity | exact Hc].
Qed.

Lemma trim_idem s : trim (trim s) = trim s.
Proof.
  unfold trim. destruct (trimStart_cases s) as [E | (c & r & E & Hc)]; rewrite E.
  - reflexivity.
  - rewrite (trimEnd_keeps_head _ _ Hc). simpl trimStart. rewrite Hc.
    rewrite (trimEnd_keeps_head _ _ Hc), trimEnd_idem. reflexivity.
Qed.

Lemma trim_digits s : forallString isDigit s = true -> trim s = s.
Proof.
  intros H. unfold trim.
  assert (Hs : trimStart s = s).
  { destruct s as [|c r]; [reflexivity|]. simpl in *.
    apply andb_true_iff in H. destruct H as [H _].
    rewrite (digit_not_space _ H). reflexivity. }
  rewrite Hs. clear Hs.
  induction s as [|c r IH]; [reflexivity|].
  simpl in H. apply andb_true_iff in H. destruct H as [Hc Hr].
  rewrite (trimEnd_keeps_head _ _ (digit_not_space _ Hc)), (IH Hr). reflexivity.
Qed.

Lemma includes_at_digits s :
  forallString isDigit s = true -> includes "@" s = false.
Proof.
  induction s as [|c r IH]; [reflexivity|]. simpl. intros H.
  apply andb_true_iff in H. destruct H as [Hc Hr].
  rewrite (digit_not_at _ Hc), (IH Hr). reflexivity.
Qed.

Lemma filter_digits s :
  forallString isDigit s = true -> filterString isDigit s = s.
Proof.
  induction s as [|c r IH]; [reflexivity|]. simpl. intros H.
  apply andb_true_iff in H. destruct H as [Hc Hr].
  rewrite Hc, (IH Hr). reflexivity.
Qed.

Lemma filterString_forall p s : forallString p (filterString p s) = true.
Proof.
  induction s as [|c r IH]; [reflexivity|]. simpl.
  destruct (p c) eqn:Hc; [simpl; rewrite Hc|]; exact IH.
Qed.

Lemma filterString_idem p s :
  filterString p (filterString p s) = filterString p s.
Proof.
  induction s as [|c r IH]; [reflexivity|]. simpl.
  destruct (p c) eqn:Hc; [simpl; rewrite Hc, IH; reflexivity | exact IH].
Qed.

Lemma prefix_head_mismatch a p c r :
  Ascii.eqb c a = false -> prefix (String a p) (String c r) = false.
Proof.
  intros H. cbn [prefix].
  destruct (ascii_dec a c) as [->|_]; [|reflexivity].
  rewrite Ascii.eqb_refl in H. discriminate H.
Qed.

Lemma replaceFirst_absent s :
  includes "@" s = false -> replaceFirst "@c.us" "" s = s.
Proof.
  induction s as [|c r IH]; [reflexivity|].
  simpl includes. intros H. apply orb_false_iff in H. destruct H as [Hc Hr].
  cbn [replaceFirst]. rewrite (prefix_head_mismatch _ _ _ _ Hc), (IH Hr).
  reflexivity.
Qed.

Lemma includes_trimStart c s :
  isWhiteSpace c = false -> includes c (trimStart s) = includes c s.
Proof.
  intros Hc. induction s as [|d r IH]; [reflexivity|].
  simpl. destruct (isWhiteSpace d) eqn:Hd; [|reflexivity].
  rewrite IH. destruct (Ascii.eqb_spec d c) as [->|_]; [congruence | reflexivity].
Qed.

Lemma includes_trimEnd c s :
  isWhiteSpace c = false -> includes c (trimEnd s) = includes c s.
Proof.
  intros Hc. induction s as [|d r IH]; [reflexivity|].
  simpl. destruct (trimEnd r) as [|d' r'] eqn:E.
  - simpl in IH. rewrite <- IH.
    destruct (isWhiteSpace d) eqn:Hd; simpl.
    + destruct (Ascii.eqb_spec d c) as [->|_]; [congruence | reflexivity].
    + reflexivity.
  - rewrite <- IH. reflexivity.
Qed.

Lemma includes_trim c s :
  isWhiteSpace c = false -> includes c (trim s) = includes c s.
Proof.
  intros Hc. unfold trim.
  rewrite (includes_trimEnd _ _ Hc). apply includes_trimStart, Hc.
Qed.

Lemma space_not_digit c : isWhiteSpace c = true -> isDigit c = false.
Proof.
  intros H. destruct (isDigit c) eqn:E; [|reflexivity].
  rewrite (digit_not_space _ E) in H. discriminate H.
Qed.

Lemma digits_trimStart s :
  filterString isDigit (trimStart s) = filterString isDigit s.
Proof.
  induction s as [|c r IH]; [reflexivity|].
  simpl. destruct (isWhiteSpace c) eqn:Hc; [|reflexivity].
  rewrite (space_not_digit _ Hc). exact IH.
Qed.

Lemma digits_trimEnd s :
  filterString isDigit (trimEnd s) = filterString isDigit s.
Proof.
  induction s as [|c r IH]; [reflexivity|].
  simpl. destruct (trimEnd r) as [|c' r'] eqn:E.
  - simpl in IH. rewrite <- IH.
    destruct (isWhiteSpace c) eqn:Hc; [|reflexivity].
    rewrite (space_not_digit _ Hc). reflexivity.
  - simpl filterString at 1. rewrite <- IH. reflexivity.
Qed.

Lemma digits_trim s : filterString isDigit (trim s) = filterString isDigit s.
Proof. unfold trim. rewrite digits_trimEnd. apply digits_trimStart. Qed.

(* ===================================================================== *)
(** ** The resolver *)
(* ===================================================================== *)

(** An input without ['@'] that has a digit in it parses to the direct user
    of its digits. *)
Lemma parse_number s n :
  includes "@" s = false ->
  normalizePhoneNumber (JStr s) = n ->
  n <> "" ->
  parseChatTarget (JStr s) = inr (mkTarget (JStr (n ++ "@c.us")) n (Some true)).
Proof.
  intros Hat Hn Hne. unfold parseChatTarget, normalizePhoneNumber in *.
  rewrite includes_trim by reflexivity. rewrite Hat, digits_trim, Hn.
  destruct (String.eqb_spec (trim s) "") as [E|_].
  - rewrite <- digits_trim, E in Hn. subst n. contradiction Hne. reflexivity.
  - apply String.eqb_neq in Hne. rewrite Hne. reflexivity.
Qed.

Lemma parse_digits s :
  forallString isDigit s = true -> s <> "" ->
  parseChatTarget (JStr s) = inr (mkTarget (JStr (s ++ "@c.us")) s (Some true)).
Proof.
  intros Hd Hne.
  apply parse_number; [apply includes_at_digits, Hd | apply filter_digits, Hd | exact Hne].
Qed.


Lemma lookupNumber_digits s :
  forallString isDigit s = true ->
  lookupNumber (mkTarget (JStr (s ++ "@c.us")) s (Some true)) = s.
Proof.
  intros Hd. unfold lookupNumber, normalizePhoneNumber. simpl normalizedNumber.
  rewrite (replaceFirst_absent _ (includes_at_digits _ Hd)).
  apply filter_digits, Hd.
Qed.

(** What [resolveChatId] does once the input has parsed to a direct user
    with a number to look up: the three ways the lookup can end. *)
Lemma resolve_direct ext input parsed w :
  parseChatTarget input = inr parsed ->
  isDirectUser parsed = Some true ->
  lookupNumber parsed <> "" ->
  let n := lookupNumber parsed in
  let w' := emit (EvGetNumberId n) w in
  resolveChatId ext input w =
  match getNumberId ext (history w) n with
  | Throws _ => (Returns (inr (mkTarget (JStr (n ++ "@c.us")) n None)), w')
  | Returns numberId =>
      let serialized :=
        if typeof numberId =? "string" then numberId
        else optMember numberId "_serialized" in
      if truthy serialized
      then (Returns (inr (mkTarget serialized n None)), w')
      else (Returns (inl (notRegistered n)), w')
  end.
Proof.
  intros Hp Hd Hn. unfold resolveChatId. rewrite Hp, Hd.
  fold (lookupNumber parsed). apply String.eqb_neq in Hn. rewrite Hn.
  unfold tryCatch, bind, call. cbv zeta.
  destruct (getNumberId ext (history w) (lookupNumber parsed)) as [numberId|e];
    [|reflexivity].
  destruct (truthy _); reflexivity.
Qed.

(** Every target [resolveChatId] returns either is the parsed target of an
    id that is not a direct user's, with nothing looked up, or carries a
    non-empty number of digits only. *)
Lemma resolve_target_shape ext input w t w' :
  resolveChatId ext input w = (Returns (inr t), w') ->
  (parseChatTarget input = inr t /\ isDirectUser t <> Some true /\ w' = w)
  \/ (forallString isDigit (normalizedNumber t) = true
      /\ normalizedNumber t <> "").
Proof.
  destruct (parseChatTarget input) as [e|parsed] eqn:Hp.
  { unfold resolveChatId. rewrite Hp. discriminate. }
  destruct (isDirectUser parsed) as [[|]|] eqn:Hd.
  - destruct (String.eqb_spec (lookupNumber parsed) "") as [E|Hn].
    + unfold resolveChatId. rewrite Hp, Hd. fold (lookupNumber parsed).
      rewrite E. discriminate.
    + rewrite (resolve_direct ext input parsed w Hp Hd Hn). cbv zeta.
      assert (Hdig : forallString isDigit (lookupNumber parsed) = true)
        by apply filterString_forall.
      destruct (getNumberId ext (history w) (lookupNumber parsed)) as [v|e].
      * destruct (truthy _); intros H; inversion H; subst; right; split; assumption.
      * intros H; inversion H; subst; right; split; assumption.
  - unfold resolveChatId. rewrite Hp, Hd. intros H. inversion H; subst.
    left. repeat split; congruence.
  - unfold resolveChatId. rewrite Hp, Hd. intros H. inversion H; subst.
    left. repeat split; congruence.
Qed.

(** A target [parseChatTarget] returns parses to itself. *)
Lemma parse_normalized_fixpoint v t :
  parseChatTarget v = inr t -> parseChatTarget (JStr (normalizedNumber t)) = inr t.
Proof.
  destruct v as [| |b|z|s|l|f]; try discriminate. unfold parseChatTarget.
  destruct (trim s =? "") eqn:He; [discriminate|].
  destruct (includes "@" (trim s)) eqn:Hi.
  - intros H. inversion H; subst. simpl normalizedNumber.
    rewrite trim_idem, He, Hi. reflexivity.
  - unfold normalizePhoneNumber.
    destruct (filterString isDigit (trim s) =? "") eqn:Hn; [discriminate|].
    intros H. inversion H; subst. simpl normalizedNumber.
    apply String.eqb_neq in Hn.
    apply (parse_digits _ (filterString_forall _ _) Hn).
Qed.

(** C3, as the spec states it, fails on an id that ends in [@c.us]: it
    contains ['@'], yet it is a direct user's id, its number is looked up,
    and here the lookup turns the input into an error. *)
Lemma C3_direct_user_id_is_looked_up :
  includes "@" "628111@c.us" = true /\
  resolveChatId unregisteredClient (JStr "628111@c.us") readyWorld
  = (Returns (inl "Nomor 628111 tidak terdaftar di WhatsApp"),
     emit (EvGetNumberId "628111") readyWorld).
Proof. split; reflexivity. Qed.

(** C3 (amended): a raw input string that contains ['@'] and whose trimmed
    form does not end in [@c.us] resolves without any call to the client
    (the world, and with it the history, is unchanged) and its trimmed form
    is returned as the chat id. *)
Theorem C3_non_direct_id_resolves_without_lookup ext s w :
  includes "@" s = true ->
  endsWith "@c.us" (trim s) = false ->
  resolveChatId ext (JStr s) w
  = (Returns (inr (mkTarget (JStr (trim s)) (trim s) (Some false))), w).
Proof.
  intros Hat Hsuffix.
  assert (Hi : includes "@" (trim s) = true)
    by (rewrite includes_trim; [exact Hat | reflexivity]).
  unfold resolveChatId, parseChatTarget.
  destruct (String.eqb_spec (trim s) "") as [E|_].
  - rewrite E in Hi. discriminate Hi.
  - rewrite Hi, Hsuffix. reflexivity.
Qed.

Lemma C3_witness_group_id :
  resolveChatId registeredClient (JStr " 12345-678@g.us ") readyWorld
  = (Returns (inr (mkTarget (JStr "12345-678@g.us") "12345-678@g.us" (Some false))),
     readyWorld).
Proof.
  apply (C3_non_direct_id_resolves_without_lookup
           registeredClient " 12345-678@g.us " readyWorld); reflexivity.
Defined.

(** C4: for a target without ['@'] whose digits are the non-empty number
    [n], a lookup that throws makes [resolveChatId] return the chat id
    [n + "@c.us"] and no error, while a lookup that completes with [null] or
    [undefined] makes it return the error that the number is not
    registered. Either way the lookup of [n] is the one call made. *)
Theorem C4_lookup_failure_fails_open ext s n w :
  includes "@" s = false ->
  normalizePhoneNumber (JStr s) = n ->
  n <> "" ->
  (forall e, getNumberId ext (history w) n = Throws e ->
     resolveChatId ext (JStr s) w
     = (Returns (inr (mkTarget (JStr (n ++ "@c.us")) n None)),
        emit (EvGetNumberId n) w))
  /\
  (forall v, getNumberId ext (history w) n = Returns v ->
     v = JNull \/ v = JUndefined ->
     resolveChatId ext (JStr s) w
     = (Returns (inl ("Nomor " ++ n ++ " tidak terdaftar di WhatsApp")),
        emit (EvGetNumberId n) w)).
Proof.
  intros Hat Hn Hne.
  assert (Hd : forallString isDigit n = true)
    by (subst n; apply filterString_forall).
  pose proof (resolve_direct ext (JStr s) _ w (parse_number s n Hat Hn Hne) eq_refl)
    as R.
  rewrite (lookupNumber_digits n Hd) in R. specialize (R Hne). cbv zeta in R.
  split.
  - intros e He. rewrite R, He. reflexivity.
  - intros v Hv Hnone. rewrite R, Hv. destruct Hnone; subst v; reflexivity.
Qed.

Lemma C4_witness_unavailable_and_unregistered :
  resolveChatId flakyClient (JStr "+62 812-3456-7890") readyWorld
  = (Returns (inr (mkTarget (JStr "6281234567890@c.us") "6281234567890" None)),
     emit (EvGetNumberId "6281234567890") readyWorld)
  /\
  resolveChatId unregisteredClient (JStr "6281234567890") readyWorld
  = (Returns (inl "Nomor 6281234567890 tidak terdaftar di WhatsApp"),
     emit (EvGetNumberId "6281234567890") readyWorld).
Proof.
  split.
  - apply (proj1 (C4_lookup_failure_fails_open flakyClient "+62 812-3456-7890"
                    "6281234567890" readyWorld eq_refl eq_refl
                    ltac:(discriminate))
                 (JStr "Evaluation failed")).
    reflexivity.
  - apply (proj2 (C4_lookup_failure_fails_open unregisteredClient "6281234567890"
                    "6281234567890" readyWorld eq_refl eq_refl
                    ltac:(discriminate))
                 JNull); [reflexivity | left; reflexivity].
Defined.

(** C9, as the spec states it, fails: the normalized number of
    ["+62 812-3456-7890"] is ["6281234567890"], which is not the string
    ["628123456789 0"] of the spec (that one still has a space in it). *)
Lemma C9_normalized_number_has_no_space :
  resolveChatId registeredClient (JStr "+62 812-3456-7890") readyWorld
  = (Returns (inr (mkTarget (JStr "6281234567890@c.us") "6281234567890" None)),
     emit (EvGetNumberId "6281234567890") readyWorld)
  /\ normalizePhoneNumber (JStr "+62 812-3456-7890") <> "628123456789 0".
Proof. split; [reflexivity | discriminate]. Qed.

(** C9 (amended): normalizing ["+62 812-3456-7890"] gives ["6281234567890"],
    and that is the normalized number of every target the input resolves to;
    normalization is idempotent, and resolving the normalized number of a
    resolved target again gives the same normalized number. *)
Theorem C9_normalization_strips_and_is_idempotent :
  normalizePhoneNumber (JStr "+62 812-3456-7890") = "6281234567890"
  /\ (forall ext w t w',
        resolveChatId ext (JStr "+62 812-3456-7890") w = (Returns (inr t), w') ->
        normalizedNumber t = "6281234567890")
  /\ (forall s,
        normalizePhoneNumber (JStr (normalizePhoneNumber (JStr s)))
        = normalizePhoneNumber (JStr s))
  /\ (forall ext input w t w1 w2 t' w3,
        resolveChatId ext input w = (Returns (inr t), w1) ->
        resolveChatId ext (JStr (normalizedNumber t)) w2 = (Returns (inr t'), w3) ->
        normalizedNumber t' = normalizedNumber t).
Proof.
  split; [reflexivity|]. split; [|split].
  - intros ext w t w'.
    rewrite (resolve_direct ext _ _ w parse_flexible eq_refl ltac:(discriminate)).
    cbv zeta.
    destruct (getNumberId _ _ _) as [v|e].
    + destruct (truthy _); intros H; inversion H; reflexivity.
    + intros H; inversion H; reflexivity.
  - intros s. apply filterString_idem.
  - intros ext input w t w1 w2 t' w3 H1 H2.
    destruct (resolve_target_shape _ _ _ _ _ H1) as [(Hp & Hnd & _) | (Hd & Hne)].
    + apply parse_normalized_fixpoint in Hp.
      unfold resolveChatId in H2. rewrite Hp in H2.
      destruct (isDirectUser t) as [[|]|]; try congruence;
        inversion H2; reflexivity.
    + pose proof (resolve_direct ext _ _ w2 (parse_digits _ Hd Hne) eq_refl) as R.
      rewrite (lookupNumber_digits _ Hd) in R. specialize (R Hne). cbv zeta in R.
      rewrite R in H2.
      destruct (getNumberId _ _ _) as [v|e].
      * destruct (truthy _); inversion H2; reflexivity.
      * inversion H2; reflexivity.
Qed.

Lemma C9_witness_flexible_number :
  normalizedNumber (mkTarget (JStr "6281234567890@c.us") "6281234567890" None)
  = "6281234567890"
  /\ normalizedNumber (mkTarget (JStr "6281234567890@c.us") "6281234567890" None)
     = normalizedNumber (mkTarget (JStr "6281234567890@c.us") "6281234567890" None).
Proof.
  split.
  - apply (proj1 (proj2 C9_normalization_strips_and_is_idempotent)
             registeredClient readyWorld _ _ resolve_registered).
  - apply (proj2 (proj2 (proj2 C9_normalization_strips_and_is_idempotent))
             registeredClient (JStr "+62 812-3456-7890") readyWorld _ _
             readyWorld _ (emit (EvGetNumberId "6281234567890") readyWorld)
             resolve_registered).
    reflexivity.
Defined.

(* ===================================================================== *)
(** ** The pairing artifact and the lifecycle handlers *)
(* ===================================================================== *)







(* ===================================================================== *)
(** ** The single-send guard, the delay and clear-session *)
(* ===================================================================== *)

(** C5, as the spec states it, fails at [delay = 0]: [delay || 1000] takes
    the default for it, so the effective delay is 1000 and not 100. *)
Lemma C5_zero_delay_takes_the_default :
  delayMs (Some 0%Z) = 1000%Z /\ delayMs (Some 0%Z) <> 100%Z.
Proof. split; [reflexivity | discriminate]. Qed.

(** C5 (amended): for an absent delay and for every integer delay the
    effective delay lies between 100 and 10000; the requested values 0, 50
    and 5000000 give 1000, 100 and 10000, and an absent delay gives 1000. *)
Theorem C5_delay_within_bounds :
  (forall delay, (100 <= delayMs delay <= 10000)%Z)
  /\ delayMs (Some 0%Z) = 1000%Z
  /\ delayMs (Some 50%Z) = 100%Z
  /\ delayMs (Some 5000000%Z) = 10000%Z
  /\ delayMs None = 1000%Z.
Proof.
  split; [|repeat split; reflexivity].
  intros [d|]; unfold delayMs; [|lia].
  destruct (d =? 0)%Z; lia.
Qed.

Lemma eventsSince_same w : eventsSince w w = [].
Proof. unfold eventsSince. apply skipn_all. Qed.

(** C7: while [clientReady] is false, POST /api/send-message answers 400
    and leaves the world as it was: nothing is looked up and nothing is
    sent. *)
Theorem C7_send_message_rejected_when_not_ready ext number message w :
  clientReady w = false ->
  status (fst (postSendMessage ext number message w)) = 400
  /\ snd (postSendMessage ext number message w) = w
  /\ eventsSince w (snd (postSendMessage ext number message w)) = [].
Proof.
  intros H. unfold postSendMessage. rewrite H. simpl.
  repeat split. apply eventsSince_same.
Qed.

Lemma C7_witness_before_pairing :
  status (fst (postSendMessage registeredClient (JStr "6281234567890")
                 (JStr "Hello dari API!") startWorld)) = 400
  /\ snd (postSendMessage registeredClient (JStr "6281234567890")
            (JStr "Hello dari API!") startWorld) = startWorld
  /\ eventsSince startWorld
       (snd (postSendMessage registeredClient (JStr "6281234567890")
               (JStr "Hello dari API!") startWorld)) = [].
Proof.
  apply (C7_send_message_rejected_when_not_ready registeredClient
           (JStr "6281234567890") (JStr "Hello dari API!") startWorld).
  reflexivity.
Defined.

(** C8, as the spec states it, fails when the removal of the session folder
    throws as well: the teardown error is swallowed, but the error of
    [fs.rmSync] reaches the outer [catch], the answer is 500 and the folder
    is still there. *)
Lemma C8_removal_failure_answers_500 :
  postClearSession
    (mkExternals (fun _ _ => Returns JNull) sendOk
       (fun _ => Returns tt)
       (fun _ => Throws (JStr "Target closed"))
       (fun _ => Throws (JStr "EBUSY: resource busy or locked"))
       (fun qr => Returns qr))
    readyWorld
  = (mkResponse 500
       (BodyFailure "Gagal menghapus session"
          (Some (JStr "EBUSY: resource busy or locked"))),
     mkWorld None true false true [EvDestroy; EvRmSession]).
Proof. reflexivity. Qed.

(** C8 (amended): when there is a client and its teardown throws, POST
    /api/clear-session still answers 200, provided that the removal of the
    session folder, if there is one, does not itself throw; after the failed
    teardown it removes the session folder if there is one, schedules the
    re-initialization, and leaves [clientReady] false and no QR code. *)
Theorem C8_clear_session_survives_teardown_failure ext w e :
  client w = true ->
  destroy ext (history w) = Throws e ->
  (sessionFolder w = true ->
   rmSync ext (history w ++ [EvDestroy]) = Returns tt) ->
  postClearSession ext w
  = (mkResponse 200
       (BodyDone
          "Session berhasil dihapus. QR Code baru akan tersedia dalam beberapa saat."),
     mkWorld None true false false
       (history w ++ [EvDestroy]
          ++ (if sessionFolder w then [EvRmSession] else [])
          ++ [EvScheduleInit 2000])).
Proof.
  intros Hc Hd Hrm. destruct w as [q c r f h]. simpl in *. subst c.
  unfold postClearSession, respond, bind, tryCatch, call, scheduleInit, ret, emit,
    setQrCodeData, setClientReady, setSessionFolder.
  simpl. rewrite Hd. simpl.
  destruct f; simpl.
  - rewrite (Hrm eq_refl). simpl. rewrite <- !app_assoc. reflexivity.
  - rewrite <- !app_assoc. reflexivity.
Qed.

Lemma C8_witness_teardown_throws :
  postClearSession flakyClient readyWorld
  = (mkResponse 200
       (BodyDone
          "Session berhasil dihapus. QR Code baru akan tersedia dalam beberapa saat."),
     mkWorld None true false false
       [EvDestroy; EvRmSession; EvScheduleInit 2000]).
Proof.
  apply (C8_clear_session_survives_teardown_failure flakyClient readyWorld
           (JStr "Target closed")); reflexivity.
Defined.

(* ===================================================================== *)
(** ** The batch loop *)
(* ===================================================================== *)

Lemma extend_nil w : extend [] w = w.
Proof. destruct w. unfold extend. simpl. rewrite app_nil_r. reflexivity. Qed.

Lemma extend_extend a b w : extend b (extend a w) = extend (a ++ b) w.
Proof. unfold extend. simpl. rewrite app_assoc. reflexivity. Qed.

Lemma eventsSince_extend evs w : eventsSince w (extend evs w) = evs.
Proof.
  unfold eventsSince. simpl. rewrite skipn_app, skipn_all, Nat.sub_diag.
  reflexivity.
Qed.

Lemma extend_inj a b w : extend a w = extend b w -> a = b.
Proof.
  unfold extend. intros H. injection H as H. apply app_inv_head in H. exact H.
Qed.

Lemma push_inj r r' t : push r t = push r' t -> r = r'.
Proof.
  unfold push. intros H. injection H as H _ _.
  apply app_inj_tail in H. apply H.
Qed.

Lemma sleepsOf_app a b : sleepsOf (a ++ b) = (sleepsOf a ++ sleepsOf b)%list.
Proof. unfold sleepsOf. apply flat_map_app. Qed.

(** [resolveChatId] never throws and never pauses. *)
Lemma resolve_total ext input w :
  exists p evs,
    resolveChatId ext input w = (Returns p, extend evs w) /\ sleepsOf evs = [].
Proof.
  unfold resolveChatId.
  destruct (parseChatTarget input) as [e|parsed].
  { exists (inl e), []. rewrite extend_nil. split; reflexivity. }
  destruct (isDirectUser parsed) as [[|]|].
  2,3: exists (inr parsed), []; rewrite extend_nil; split; reflexivity.
  destruct (_ =? "").
  { eexists; exists []. rewrite extend_nil. split; reflexivity. }
  unfold tryCatch, bind, call, ret.
  destruct (getNumberId _ _ _) as [v|e].
  - destruct (negb (truthy _)); do 2 eexists; split; reflexivity.
  - do 2 eexists; split; reflexivity.
Qed.

(** Runs the inner [try] symbolically: the resolver's answer [R] first, then
    whatever is known about the send and about the two property reads. *)
Ltac run_attempt R :=
  intros ?t;
  unfold attemptSend, serializedId, tryCatch, bind, call, lift, sleep;
  rewrite R; simpl;
  repeat match goal with
         | E : sendMessage _ _ _ _ = _ |- _ => rewrite E
         | E : member _ _ = _ |- _ => rewrite E
         | E : (_ <? _)%nat = _ |- _ => rewrite E
         end;
  unfold ret, emit, extend; simpl; rewrite <- ?app_assoc; reflexivity.

(** The inner [try]/[catch] always appends exactly one result, obeys the
    pacing rule, and sends to every target the resolver returns. *)
Lemma attemptSend_spec ext len i d targetNumber targetMessage w :
  exists r seg,
    (forall t, attemptSend ext len i d targetNumber targetMessage t w
               = (Returns (push r t), extend seg w))
    /\ pacedAt len i d r seg
    /\ (forall target w2,
          resolveChatId ext targetNumber w = (Returns (inr target), w2) ->
          In (EvSendMessage (chatId target) targetMessage) seg).
Proof.
  destruct (resolve_total ext targetNumber w) as (p & evs & R & S0).
  unfold pacedAt, paced.
  destruct p as [err|target].
  { exists (mkItemResult targetNumber false JNull (JStr err)), evs.
    split; [run_attempt R | split; [exact S0|]].
    intros target w2. rewrite R. discriminate. }
  set (calls := (evs ++ [EvSendMessage (chatId target) targetMessage])%list).
  assert (Hin : forall target' w2,
            resolveChatId ext targetNumber w = (Returns (inr target'), w2) ->
            In (EvSendMessage (chatId target') targetMessage) calls).
  { intros target' w2. rewrite R. intros H. inversion H; subst.
    apply in_or_app. right. left. reflexivity. }
  assert (Hs : sleepsOf calls = []).
  { unfold calls. rewrite sleepsOf_app, S0. reflexivity. }
  assert (Hfailed : forall e,
            (forall t, attemptSend ext len i d targetNumber targetMessage t w
                       = (Returns (pushFailed targetNumber e t), extend calls w)) ->
            exists r seg,
              (forall t, attemptSend ext len i d targetNumber targetMessage t w
                         = (Returns (push r t), extend seg w))
              /\ (if success r && negb (negb (i <? len - 1)%nat)
                  then exists c, seg = (c ++ [EvSleep d])%list /\ sleepsOf c = []
                  else sleepsOf seg = [])
              /\ (forall target' w2,
                    resolveChatId ext targetNumber w = (Returns (inr target'), w2) ->
                    In (EvSendMessage (chatId target') targetMessage) seg)).
  { intros e H. exists (mkItemResult targetNumber false JNull e), calls.
    split; [exact H | split; [exact Hs | exact Hin]]. }
  subst calls.
  destruct (sendMessage ext (history w ++ evs) (chatId target) targetMessage)
    as [result|e] eqn:Esend; [|apply (Hfailed e); run_attempt R].
  destruct (member result "id") as [id|e] eqn:Eid;
    [|apply (Hfailed e); run_attempt R].
  destruct (member id "_serialized") as [serialized|e] eqn:Eser;
    [|apply (Hfailed e); run_attempt R].
  exists (mkItemResult (JStr (normalizedNumber target)) true serialized JNull).
  destruct (i <? len - 1)%nat eqn:Elast.
  - exists ((evs ++ [EvSendMessage (chatId target) targetMessage])
            ++ [EvSleep d])%list.
    split; [run_attempt R | split].
    + simpl. eexists. split; [reflexivity | exact Hs].
    + intros target' w2 H. apply in_or_app. left. exact (Hin target' w2 H).
  - exists (evs ++ [EvSendMessage (chatId target) targetMessage])%list.
    split; [run_attempt R | split; [exact Hs | exact Hin]].
Qed.

(** The one recipient the loop body cannot handle: [typeof null] is
    ['object'], and [null.number] throws outside the inner [try]. *)
Lemma batchItem_null ext len i message d t w :
  batchItem ext len i message d JNull t w
  = (Throws (JStr "Cannot read properties of null (reading 'number')"), w).
Proof. reflexivity. Qed.

Lemma rejected_item ext len i message d recipient w :
  (forall t,
     batchItem ext len i message d recipient t w
     = (Returns
          (pushFailed
             (jsOr (jsOr (optMember recipient "number") recipient) (JStr "unknown"))
             (JStr "Format recipient tidak valid") t), w)) ->
  exists r seg,
    itemRun ext len message d i recipient w r seg /\ pacedAt len i d r seg.
Proof.
  intros H.
  exists (mkItemResult
            (jsOr (jsOr (optMember recipient "number") recipient) (JStr "unknown"))
            false JNull (JStr "Format recipient tidak valid")), [].
  split; [|reflexivity].
  intros t. rewrite extend_nil. apply H.
Qed.

(** Every recipient other than [null] yields exactly one result, under the
    pacing rule. *)
Lemma batchItem_spec ext len i message d recipient w :
  recipient <> JNull ->
  exists r seg,
    itemRun ext len message d i recipient w r seg /\ pacedAt len i d r seg.
Proof.
  intros Hnull.
  destruct recipient as [| |b|z|s|l|fields]; try congruence;
    try (apply rejected_item; reflexivity).
  - destruct (attemptSend_spec ext len i d (JStr s) message w)
      as (r & seg & Hrun & Hp & _).
    exists r, seg. split; [exact Hrun | exact Hp].
  - destruct (truthy (lookupField "number" fields)) eqn:Hn.
    + destruct (truthy (lookupField "message" fields)) eqn:Hm.
      * destruct (attemptSend_spec ext len i d (lookupField "number" fields)
                    (lookupField "message" fields) w)
          as (r & seg & Hrun & Hp & _).
        exists r, seg. split; [|exact Hp].
        intros t. rewrite <- (Hrun t).
        unfold batchItem, isPair, bind, lift, member, ret. simpl typeof. simpl.
        rewrite Hn, Hm. reflexivity.
      * apply rejected_item. intros t.
        unfold batchItem, isPair, bind, lift, member, ret. simpl typeof. simpl.
        rewrite Hn, Hm. reflexivity.
    + apply rejected_item. intros t.
      unfold batchItem, isPair, bind, lift, member, ret. simpl typeof. simpl.
      rewrite Hn. reflexivity.
Qed.

Lemma itemRun_inv ext len message d i recipient w r seg :
  itemRun ext len message d i recipient w r seg ->
  recipient <> JNull /\ pacedAt len i d r seg.
Proof.
  intros Hrun.
  assert (Hnull : recipient <> JNull).
  { intros ->. specialize (Hrun (mkTally [] 0 0)).
    rewrite batchItem_null in Hrun. discriminate Hrun. }
  split; [exact Hnull|].
  destruct (batchItem_spec ext len i message d recipient w Hnull)
    as (r' & seg' & Hrun' & Hp).
  specialize (Hrun (mkTally [] 0 0)). specialize (Hrun' (mkTally [] 0 0)).
  rewrite Hrun in Hrun'.
  assert (Hr : push r (mkTally [] 0 0) = push r' (mkTally [] 0 0)) by congruence.
  assert (Hw : extend seg w = extend seg' w) by congruence.
  apply push_inj in Hr. apply extend_inj in Hw. subst. exact Hp.
Qed.

(** A loop that returns has run every item in order. *)
Lemma batchLoop_returns ext len message d rest : forall i t w t' w',
  batchLoop ext len i message d rest t w = (Returns t', w') ->
  exists rs segs,
    dispatched ext len message d i rest w rs segs
    /\ t' = pushAll rs t
    /\ w' = extend (concat segs) w.
Proof.
  induction rest as [|recipient rest IH]; intros i t w t' w' H.
  - inversion H; subst. exists [], []. split; [constructor|].
    split; [reflexivity | symmetry; apply extend_nil].
  - simpl in H. unfold bind in H.
    destruct (batchItem ext len i message d recipient t w) as [[t1|e] w1] eqn:E;
      [|discriminate H].
    assert (Hnull : recipient <> JNull).
    { intros ->. rewrite batchItem_null in E. discriminate E. }
    destruct (batchItem_spec ext len i message d recipient w Hnull)
      as (r & seg & Hrun & _).
    rewrite (Hrun t) in E. inversion E; subst t1 w1.
    apply IH in H. destruct H as (rs & segs & D & -> & ->).
    exists (r :: rs), (seg :: segs). split; [constructor; assumption|].
    split; [reflexivity|]. simpl concat. rewrite extend_extend. reflexivity.
Qed.


Lemma batchLoop_null ext len message d rest : forall i t w,
  In JNull rest ->
  exists e w', batchLoop ext len i message d rest t w = (Throws e, w').
Proof.
  induction rest as [|recipient rest IH]; intros i t w Hin; [destruct Hin|].
  simpl. unfold bind.
  destruct (batchItem ext len i message d recipient t w) as [[t1|e] w1] eqn:E.
  - destruct Hin as [->|Hin].
    + rewrite batchItem_null in E. discriminate E.
    + apply IH, Hin.
  - exists e, w1. reflexivity.
Qed.

Lemma dispatched_length ext len message d i rest w rs segs :
  dispatched ext len message d i rest w rs segs ->
  length rs = length rest /\ length segs = length rest.
Proof.
  induction 1 as [|? ? ? ? ? ? ? ? _ _ [IH1 IH2]]; simpl; auto.
Qed.

Lemma dispatched_paced ext len message d i rest w rs segs :
  dispatched ext len message d i rest w rs segs ->
  i + length rest = len ->
  pacedAll d rs segs.
Proof.
  induction 1 as [|i recipient rest w r seg rs segs Hrun D IH]; intros Hlen.
  - exact I.
  - simpl in Hlen. split; [|apply IH; lia].
    apply itemRun_inv in Hrun. destruct Hrun as [_ Hp].
    unfold pacedAt in Hp.
    destruct (dispatched_length _ _ _ _ _ _ _ _ _ D) as [Hrs _].
    destruct rs as [|r' rs'].
    + destruct rest; [|discriminate Hrs].
      replace (i <? len - 1)%nat with false in Hp; [exact Hp|].
      symmetry. apply Nat.ltb_ge. simpl in Hlen. lia.
    + destruct rest; [discriminate Hrs|].
      replace (i <? len - 1)%nat with true in Hp; [exact Hp|].
      symmetry. apply Nat.ltb_lt. simpl in Hlen. lia.
Qed.

Lemma pushAll_results rs : forall t,
  results (pushAll rs t) = (results t ++ rs)%list.
Proof.
  induction rs as [|r rs IH]; intros t; simpl.
  - symmetry. apply app_nil_r.
  - rewrite IH. simpl. rewrite <- app_assoc. reflexivity.
Qed.

Lemma pushAll_counts rs : forall t,
  sentCount (pushAll rs t) = sentCount t + length (filter success rs)
  /\ failedCount (pushAll rs t) + length (filter success rs)
     = failedCount t + length rs.
Proof.
  induction rs as [|r rs IH]; intros t; simpl.
  - lia.
  - destruct (IH (push r t)) as [IH1 IH2]. unfold pushAll in *. 
    rewrite IH1. unfold push in *. simpl in *.
    destruct (success r); simpl in *; lia.
Qed.

(* ===================================================================== *)
(** ** POST /api/send-batch-message *)
(* ===================================================================== *)

(** A 200 answer of the batch handler comes from a loop that returned. *)
Lemma batch_answer_inv ext recipients message delay w total sent failed rs w' :
  postSendBatchMessage ext recipients message delay w
  = (mkResponse 200 (BodyBatch total sent failed rs), w') ->
  exists items t,
    recipients = JArr items
    /\ batchLoop ext (length items) 0 message (delayMs delay) items
                 (mkTally [] 0 0) w = (Returns t, w')
    /\ total = length items /\ sent = sentCount t
    /\ failed = failedCount t /\ rs = results t.
Proof.
  unfold postSendBatchMessage.
  destruct (clientReady w); cbn [negb]; [|discriminate].
  destruct recipients as [| |b|z|s|items|fields]; try discriminate.
  destruct items as [|first others]; [discriminate|].
  destruct (forallb isString (first :: others) && negb (truthy message));
    [discriminate|].
  unfold respond, bind, ret.
  destruct (batchLoop _ _ _ _ _ _ _ _) as [[t|e] w1] eqn:L; [|discriminate].
  intros H. inversion H; subst.
  exists (first :: others), t. repeat split; reflexivity || assumption.
Qed.

(** What the loop gives a batch answer: whenever the handler answers 200,
    [total] is the number of recipients and of results, and [sent] and
    [failed] count the results by their [success] flag. *)
Lemma batch_tally_on_completion ext recipients message delay w
    total sent failed rs w' :
  postSendBatchMessage ext recipients message delay w
  = (mkResponse 200 (BodyBatch total sent failed rs), w') ->
  (exists items, recipients = JArr items /\ total = length items)
  /\ total = length rs
  /\ sent + failed = total
  /\ sent = length (filter success rs).
Proof.
  intros H. apply batch_answer_inv in H.
  destruct H as (items & t & -> & L & -> & -> & -> & ->).
  apply batchLoop_returns in L. destruct L as (rs & segs & D & -> & _).
  destruct (dispatched_length _ _ _ _ _ _ _ _ _ D) as [Hrs _].
  destruct (pushAll_counts rs (mkTally [] 0 0)) as [Hs Hf].
  rewrite pushAll_results. simpl in *.
  split; [exists items; split; reflexivity|].
  repeat split; lia.
Qed.


(** A [null] among the recipients turns the whole answer into a 500. *)
Lemma batch_aborts_on_null ext items message delay w :
  clientReady w = true ->
  In JNull items ->
  status (fst (postSendBatchMessage ext (JArr items) message delay w)) = 500.
Proof.
  intros Hready Hin.
  unfold postSendBatchMessage. rewrite Hready. simpl negb. cbv iota.
  destruct items as [|first others]; [destruct Hin|].
  assert (Hstr : forallb isString (first :: others) = false).
  { destruct (forallb isString (first :: others)) eqn:E; [|reflexivity].
    rewrite forallb_forall in E. specialize (E _ Hin). discriminate E. }
  rewrite Hstr. simpl andb. cbv iota.
  destruct (batchLoop_null ext (length (first :: others)) message (delayMs delay)
              (first :: others) 0 (mkTally [] 0 0) w Hin) as (e & w' & L).
  unfold respond, bind. rewrite L. reflexivity.
Qed.

(** C1 fails on the code at a batch with a [null] entry: the request passes
    every precondition check, the first item is processed, and then
    [recipient.number] throws on [null] outside the inner [try]; the outer
    [catch] answers 500 and no result is reported, whatever the client
    does. *)
Theorem C1_null_recipient_aborts_batch ext :
  exists w',
    postSendBatchMessage ext (JArr [JStr "628111"; JNull]) (JStr "hi") None
      readyWorld
    = (mkResponse 500
         (BodyFailure "Gagal mengirim batch message"
            (Some (JStr "Cannot read properties of null (reading 'number')"))),
       w').
Proof.
  destruct (attemptSend_spec ext 2 0 (delayMs None) (JStr "628111") (JStr "hi")
              readyWorld) as (r & seg & Hrun & _).
  exists (extend seg readyWorld).
  unfold postSendBatchMessage. simpl negb. cbv iota.
  change (forallb isString [JStr "628111"; JNull]) with false.
  simpl andb. cbv iota.
  unfold respond, bind, batchLoop, bind.
  change (batchItem ext (length [JStr "628111"; JNull]) 0 (JStr "hi")
            (delayMs None) (JStr "628111") (mkTally [] 0 0) readyWorld)
    with (attemptSend ext 2 0 (delayMs None) (JStr "628111") (JStr "hi")
            (mkTally [] 0 0) readyWorld).
  rewrite Hrun, batchItem_null. reflexivity.
Qed.

Lemma pacedAll_sleeps d rs : forall segs,
  pacedAll d rs segs ->
  sleepsOf (concat segs) = repeat d (length (filter success (removelast rs))).
Proof.
  induction rs as [|r rs IH]; intros segs H.
  - destruct segs; [reflexivity | destruct H].
  - destruct segs as [|seg segs]; [destruct H|].
    destruct H as [Hp Hrest]. simpl concat. rewrite sleepsOf_app, (IH _ Hrest).
    unfold paced in Hp. destruct rs as [|r' rs'].
    + rewrite andb_false_r in Hp. rewrite Hp. reflexivity.
    + rewrite andb_true_r in Hp.
      change (removelast (r :: r' :: rs')) with (r :: removelast (r' :: rs')).
      simpl filter. destruct (success r).
      * destruct Hp as (calls & -> & Hc). rewrite sleepsOf_app, Hc. reflexivity.
      * rewrite Hp. reflexivity.
Qed.

(** C6, as the spec states it, fails: in a batch of two whose first
    recipient is not a valid one, the first item is not the last, yet the
    run has no pause at all: the lookup and the send of the second item are
    its only events. *)
Lemma C6_no_pause_after_failed_item :
  postSendBatchMessage registeredClient (JArr [JObj []; JStr "628222"])
    (JStr "hi") None readyWorld
  = (mkResponse 200
       (BodyBatch 2 1 1
          [ mkItemResult (JObj []) false JNull (JStr "Format recipient tidak valid");
            mkItemResult (JStr "628222") true (JStr "3EB0C767F26EE5B6D123") JNull ]),
     mkWorld None true true true
       [ EvGetNumberId "628222";
         EvSendMessage (JStr "628222@c.us") (JStr "hi") ]).
Proof. reflexivity. Qed.

(** C6 (amended): when the batch handler answers 200, its run is the run
    of the loop body on each recipient in turn: the body of item [k] starts
    in the world the body of item [k-1] left, appends result [k] and adds
    its own segment of events, and the events of the run are these segments
    one after the other. The segment of an item that was sent and is not the
    last ends with a pause of [delayMs], so the pause comes after that
    item's send and before anything of the next item, and it has no other
    pause; the segment of any other item (failed, or last) has no pause. So
    the run pauses once for each sent item but the last, and never after a
    failed one. *)
Theorem C6_pause_follows_sent_items_only ext recipients message delay w
    total sent failed rs w' :
  postSendBatchMessage ext recipients message delay w
  = (mkResponse 200 (BodyBatch total sent failed rs), w') ->
  (exists items segs,
     recipients = JArr items
     /\ dispatched ext (length items) message (delayMs delay) 0 items w rs segs
     /\ eventsSince w w' = concat segs
     /\ pacedAll (delayMs delay) rs segs)
  /\ sleepsOf (eventsSince w w')
     = repeat (delayMs delay) (length (filter success (removelast rs))).
Proof.
  intros H. apply batch_answer_inv in H.
  destruct H as (items & t & -> & L & -> & -> & -> & ->).
  apply batchLoop_returns in L. destruct L as (rs & segs & D & -> & ->).
  pose proof (dispatched_paced _ _ _ _ _ _ _ _ _ D eq_refl) as P.
  rewrite pushAll_results, eventsSince_extend. simpl app.
  split; [|apply pacedAll_sleeps, P].
  exists items, segs. repeat split; assumption.
Qed.

Lemma C6_witness_three_recipients :
  (exists items segs,
     JArr [JStr "628111"; JObj []; JStr "628222"] = JArr items
     /\ dispatched registeredClient (length items) (JStr "hi") 100 0 items
          readyWorld
          [ mkItemResult (JStr "628111") true (JStr "3EB0C767F26EE5B6D123") JNull;
            mkItemResult (JObj []) false JNull (JStr "Format recipient tidak valid");
            mkItemResult (JStr "628222") true (JStr "3EB0C767F26EE5B6D123") JNull ]
          segs
     /\ [ EvGetNumberId "628111"; EvSendMessage (JStr "628111@c.us") (JStr "hi");
          EvSleep 100;
          EvGetNumberId "628222"; EvSendMessage (JStr "628222@c.us") (JStr "hi") ]
        = concat segs
     /\ pacedAll 100
          [ mkItemResult (JStr "628111") true (JStr "3EB0C767F26EE5B6D123") JNull;
            mkItemResult (JObj []) false JNull (JStr "Format recipient tidak valid");
            mkItemResult (JStr "628222") true (JStr "3EB0C767F26EE5B6D123") JNull ]
          segs)
  /\ sleepsOf
       [ EvGetNumberId "628111"; EvSendMessage (JStr "628111@c.us") (JStr "hi");
         EvSleep 100;
         EvGetNumberId "628222"; EvSendMessage (JStr "628222@c.us") (JStr "hi") ]
     = [100%Z].
Proof.
  exact (C6_pause_follows_sent_items_only registeredClient
           (JArr [JStr "628111"; JObj []; JStr "628222"]) (JStr "hi") (Some 50%Z)
           readyWorld _ _ _ _ _ eq_refl).
Defined.

Lemma dispatched_nth ext len message d i rest w rs segs :
  dispatched ext len message d i rest w rs segs ->
  forall k recipient,
    nth_error rest k = Some recipient ->
    exists pre seg post r,
      concat segs = (pre ++ seg ++ post)%list
      /\ itemRun ext len message d (i + k) recipient (extend pre w) r seg
      /\ nth_error rs k = Some r.
Proof.
  induction 1 as [|i recipient0 rest w r0 seg0 rs segs Hrun D IH];
    intros k recipient Hk.
  - destruct k; discriminate Hk.
  - destruct k as [|k].
    + injection Hk as <-. exists [], seg0, (concat segs), r0.
      rewrite extend_nil, Nat.add_0_r. repeat split. exact Hrun.
    + destruct (IH k recipient Hk) as (pre & seg & post & r & Hc & Hr & Hn).
      exists (seg0 ++ pre)%list, seg, post, r.
      rewrite extend_extend in Hr. rewrite Nat.add_succ_comm in Hr.
      simpl concat. rewrite Hc, <- app_assoc. repeat split; assumption.
Qed.





Example batch_mixed_without_message :
  postSendBatchMessage registeredClient
    (JArr [JStr "628111";
           JObj [("number", JStr "628222"); ("message", JStr "custom")]])
    JUndefined None readyWorld
  = (mkResponse 200
       (BodyBatch 2 2 0
          [ mkItemResult (JStr "628111") true (JStr "3EB0C767F26EE5B6D123") JNull;
            mkItemResult (JStr "628222") true (JStr "3EB0C767F26EE5B6D123") JNull ]),
     mkWorld None true true true
       [ EvGetNumberId "628111";
         EvSendMessage (JStr "628111@c.us") JUndefined;
         EvSleep 1000;
         EvGetNumberId "628222";
         EvSendMessage (JStr "628222@c.us") (JStr "custom") ]).
Proof. reflexivity. Qed.

(* ===================================================================== *)
(** ** More about the resolver *)
(* ===================================================================== *)

Lemma includes_app c a b :
  includes c (a ++ b) = includes c a || includes c b.
Proof.
  induction a as [|d r IH]; [reflexivity|].
  simpl. rewrite IH. apply orb_assoc.
Qed.

Lemma endsWith_app suffix s : endsWith suffix (s ++ suffix) = true.
Proof.
  induction s as [|c r IH].
  - destruct suffix; simpl; rewrite ?Ascii.eqb_refl, ?String.eqb_refl; reflexivity.
  - simpl. rewrite IH. apply orb_true_r.
Qed.

Lemma replaceFirst_suffix n :
  includes "@" n = false -> replaceFirst "@c.us" "" (n ++ "@c.us") = n.
Proof.
  induction n as [|c r IH]; [reflexivity|].
  simpl includes. intros H. apply orb_false_iff in H. destruct H as [Hc Hr].
  change (String c r ++ "@c.us") with (String c (r ++ "@c.us")).
  cbn [replaceFirst]. rewrite (prefix_head_mismatch _ _ _ _ Hc), (IH Hr).
  reflexivity.
Qed.

Lemma trim_digits_suffix n :
  forallString isDigit n = true -> trim (n ++ "@c.us") = n ++ "@c.us".
Proof.
  intros Hd. unfold trim.
  assert (Hs : trimStart (n ++ "@c.us") = n ++ "@c.us").
  { destruct n as [|c r]; [reflexivity|]. simpl in *.
    apply andb_true_iff in Hd. destruct Hd as [Hc _].
    rewrite (digit_not_space _ Hc). reflexivity. }
  rewrite Hs. clear Hs.
  induction n as [|c r IH]; [reflexivity|].
  simpl in Hd. apply andb_true_iff in Hd. destruct Hd as [Hc Hr].
  change (String c r ++ "@c.us") with (String c (r ++ "@c.us")).
  rewrite (trimEnd_keeps_head _ _ (digit_not_space _ Hc)), (IH Hr). reflexivity.
Qed.

Lemma filter_digits_suffix n :
  filterString isDigit (n ++ "@c.us") = filterString isDigit n.
Proof.
  induction n as [|c r IH]; [reflexivity|].
  simpl. rewrite IH. reflexivity.
Qed.

(** X1: whatever it is given, [normalizePhoneNumber] returns a string of
    digits only, never longer than the input string, and it returns a
    string of digits unchanged. *)
Theorem X1_normalize_gives_digits_only :
  (forall v, forallString isDigit (normalizePhoneNumber v) = true)
  /\ (forall s, String.length (normalizePhoneNumber (JStr s)) <= String.length s)
  /\ (forall s, forallString isDigit s = true -> normalizePhoneNumber (JStr s) = s).
Proof.
  split; [|split].
  - intros v. destruct v; try reflexivity. apply filterString_forall.
  - intros s. simpl. induction s as [|c r IH]; [reflexivity|].
    simpl. destruct (isDigit c); simpl; lia.
  - intros s. apply filter_digits.
Qed.

Lemma X1_witness_digit_string :
  normalizePhoneNumber (JStr "6281234567890") = "6281234567890".
Proof.
  apply (proj2 (proj2 X1_normalize_gives_digits_only) "6281234567890").
  reflexivity.
Defined.

(** X2: [parseChatTarget] rejects exactly three kinds of input, each with
    its own text: a value that is not a string, a string that is empty once
    trimmed, and a string without ['@'] that has no digit in it. Every other
    string gives a target. *)
Theorem X2_parse_rejects_exactly s :
  (forall v, typeof v <> "string" ->
     parseChatTarget v = inl "Nomor tujuan harus berupa string")
  /\ (trim s = "" ->
      parseChatTarget (JStr s) = inl "Nomor tujuan tidak boleh kosong")
  /\ (trim s <> "" -> includes "@" s = false ->
      normalizePhoneNumber (JStr s) = "" ->
      parseChatTarget (JStr s) = inl "Format nomor tidak valid")
  /\ (trim s <> "" ->
      includes "@" s = true \/ normalizePhoneNumber (JStr s) <> "" ->
      exists t, parseChatTarget (JStr s) = inr t).
Proof.
  split; [|split; [|split]].
  - intros v Hv. destruct v; try reflexivity. contradiction Hv. reflexivity.
  - intros E. unfold parseChatTarget. rewrite E. reflexivity.
  - intros Hne Hat Hn. unfold parseChatTarget, normalizePhoneNumber in *.
    apply String.eqb_neq in Hne. rewrite Hne.
    rewrite includes_trim by reflexivity. rewrite Hat, digits_trim, Hn.
    reflexivity.
  - intros Hne H. unfold parseChatTarget, normalizePhoneNumber in *.
    apply String.eqb_neq in Hne. rewrite Hne.
    rewrite includes_trim by reflexivity.
    destruct (includes "@" s) eqn:Hat; [eexists; reflexivity|].
    destruct H as [H|H]; [discriminate H|].
    rewrite digits_trim. apply String.eqb_neq in H. rewrite H.
    eexists; reflexivity.
Qed.

Lemma X2_witness_each_case :
  parseChatTarget (JNum 6281234567890) = inl "Nomor tujuan harus berupa string"
  /\ parseChatTarget (JStr "   ") = inl "Nomor tujuan tidak boleh kosong"
  /\ parseChatTarget (JStr "abc") = inl "Format nomor tidak valid"
  /\ exists t, parseChatTarget (JStr "0812-3456") = inr t.
Proof.
  split; [|split; [|split]].
  - apply (proj1 (X2_parse_rejects_exactly "")). discriminate.
  - apply (proj1 (proj2 (X2_parse_rejects_exactly "   "))). reflexivity.
  - apply (proj1 (proj2 (proj2 (X2_parse_rejects_exactly "abc"))));
      [discriminate | reflexivity | reflexivity].
  - apply (proj2 (proj2 (proj2 (X2_parse_rejects_exactly "0812-3456"))));
      [discriminate | right; discriminate].
Defined.

(** X3: the chat id of every target [parseChatTarget] returns is a string
    that contains ['@'], and the target is flagged as a direct user exactly
    when that string ends in [@c.us]. *)
Theorem X3_parsed_chat_id_shape v t :
  parseChatTarget v = inr t ->
  exists c,
    chatId t = JStr c
    /\ includes "@" c = true
    /\ isDirectUser t = Some (endsWith "@c.us" c).
Proof.
  destruct v as [| |b|z|s|l|f]; try discriminate. unfold parseChatTarget.
  destruct (trim s =? ""); [discriminate|].
  destruct (includes "@" (trim s)) eqn:Hat.
  - intros H. inversion H; subst. exists (trim s). repeat split. exact Hat.
  - destruct (normalizePhoneNumber (JStr (trim s)) =? ""); [discriminate|].
    intros H. inversion H; subst. eexists. split; [reflexivity|].
    rewrite includes_app, endsWith_app, orb_true_r. split; reflexivity.
Qed.

Lemma X3_witness_number :
  exists c,
    chatId (mkTarget (JStr "6281234567890@c.us") "6281234567890" (Some true))
    = JStr c
    /\ includes "@" c = true
    /\ isDirectUser (mkTarget (JStr "6281234567890@c.us") "6281234567890" (Some true))
       = Some (endsWith "@c.us" c).
Proof.
  apply (X3_parsed_chat_id_shape (JStr "+62 812-3456-7890")). reflexivity.
Defined.


(** X4: however it ends, [resolveChatId] calls the client at most once:
    either it adds no event, or it adds the lookup of one non-empty string
    of digits. It never sends, never pauses and never touches the rest of
    the state. *)
Theorem X4_resolve_calls_at_most_one_lookup ext input w :
  exists o evs,
    resolveChatId ext input w = (o, extend evs w)
    /\ (evs = []
        \/ exists n, evs = [EvGetNumberId n]
                     /\ forallString isDigit n = true /\ n <> "").
Proof.
  unfold resolveChatId.
  destruct (parseChatTarget input) as [e|parsed].
  { exists (Returns (inl e)), []. rewrite extend_nil.
    split; [reflexivity | left; reflexivity]. }
  destruct (isDirectUser parsed) as [[|]|].
  2,3: exists (Returns (inr parsed)), []; rewrite extend_nil;
       split; [reflexivity | left; reflexivity].
  fold (lookupNumber parsed).
  destruct (String.eqb_spec (lookupNumber parsed) "") as [E|Hne].
  { eexists; exists []. rewrite extend_nil. split; [reflexivity | left; reflexivity]. }
  assert (Hd : forallString isDigit (lookupNumber parsed) = true)
    by apply filterString_forall.
  unfold tryCatch, bind, call, ret.
  destruct (getNumberId _ _ _) as [v|e].
  - destruct (negb (truthy _)); do 2 eexists;
      (split; [reflexivity | right; eexists; repeat split; eassumption]).
  - do 2 eexists;
      (split; [reflexivity | right; eexists; repeat split; eassumption]).
Qed.

Lemma resolve_sends_nothing ext input w :
  exists p evs,
    resolveChatId ext input w = (Returns p, extend evs w) /\ sendsOf evs = 0.
Proof.
  unfold resolveChatId.
  destruct (parseChatTarget input) as [e|parsed].
  { exists (inl e), []. rewrite extend_nil. split; reflexivity. }
  destruct (isDirectUser parsed) as [[|]|].
  2,3: exists (inr parsed), []; rewrite extend_nil; split; reflexivity.
  destruct (_ =? "").
  { eexists; exists []. rewrite extend_nil. split; reflexivity. }
  unfold tryCatch, bind, call, ret.
  destruct (getNumberId _ _ _) as [v|e].
  - destruct (negb (truthy _)); do 2 eexists; split; reflexivity.
  - do 2 eexists; split; reflexivity.
Qed.

Lemma sendsOf_app a b : sendsOf (a ++ b) = sendsOf a + sendsOf b.
Proof. unfold sendsOf. rewrite filter_app. apply length_app. Qed.

(** X5: for a target without ['@'] whose digits are the non-empty number
    [n], a lookup that returns a non-empty string makes that string the
    chat id, and a lookup that returns an object makes its [_serialized]
    property the chat id when that is truthy, and gives the
    not-registered error when it is not. The normalized number is [n]. *)
Theorem X5_lookup_result_becomes_chat_id ext s n w :
  includes "@" s = false ->
  normalizePhoneNumber (JStr s) = n ->
  n <> "" ->
  (forall id, id <> "" ->
     getNumberId ext (history w) n = Returns (JStr id) ->
     resolveChatId ext (JStr s) w
     = (Returns (inr (mkTarget (JStr id) n None)), emit (EvGetNumberId n) w))
  /\
  (forall fields,
     getNumberId ext (history w) n = Returns (JObj fields) ->
     resolveChatId ext (JStr s) w
     = (Returns (if truthy (lookupField "_serialized" fields)
                 then inr (mkTarget (lookupField "_serialized" fields) n None)
                 else inl ("Nomor " ++ n ++ " tidak terdaftar di WhatsApp")),
        emit (EvGetNumberId n) w)).
Proof.
  intros Hat Hn Hne.
  assert (Hd : forallString isDigit n = true)
    by (subst n; apply filterString_forall).
  pose proof (resolve_direct ext (JStr s) _ w (parse_number s n Hat Hn Hne) eq_refl)
    as R.
  rewrite (lookupNumber_digits n Hd) in R. specialize (R Hne). cbv zeta in R.
  split.
  - intros id Hid Hv. rewrite R, Hv. simpl.
    apply String.eqb_neq in Hid. rewrite Hid. reflexivity.
  - intros fields Hv. rewrite R, Hv. simpl.
    destruct (truthy (lookupField "_serialized" fields)); reflexivity.
Qed.

Lemma X5_witness_registered_number :
  resolveChatId registeredClient (JStr "0812 3456") readyWorld
  = (Returns (inr (mkTarget (JStr "08123456@c.us") "08123456" None)),
     emit (EvGetNumberId "08123456") readyWorld).
Proof.
  apply (proj2 (X5_lookup_result_becomes_chat_id registeredClient "0812 3456"
                  "08123456" readyWorld eq_refl eq_refl ltac:(discriminate))
               [("_serialized", JStr "08123456@c.us")]).
  reflexivity.
Defined.

(** X6: how a number is written does not matter: two inputs without ['@']
    that have the same digits, at least one, resolve to the same outcome
    with the same call, from the same world. *)
Theorem X6_resolution_ignores_formatting ext s1 s2 w :
  includes "@" s1 = false ->
  includes "@" s2 = false ->
  normalizePhoneNumber (JStr s1) = normalizePhoneNumber (JStr s2) ->
  normalizePhoneNumber (JStr s1) <> "" ->
  resolveChatId ext (JStr s1) w = resolveChatId ext (JStr s2) w.
Proof.
  intros H1 H2 Heq Hne.
  set (n := normalizePhoneNumber (JStr s1)) in *.
  assert (Hd : forallString isDigit n = true) by apply filterString_forall.
  pose proof (resolve_direct ext (JStr s1) _ w
                (parse_number s1 n H1 eq_refl Hne) eq_refl) as R1.
  pose proof (resolve_direct ext (JStr s2) _ w
                (parse_number s2 n H2 (eq_sym Heq) Hne) eq_refl) as R2.
  rewrite (lookupNumber_digits n Hd) in R1, R2.
  rewrite (R1 Hne), (R2 Hne). reflexivity.
Qed.

Lemma X6_witness_two_spellings :
  resolveChatId unregisteredClient (JStr "+62 812-3456-7890") readyWorld
  = resolveChatId unregisteredClient (JStr "(62) 8123 4567 890") readyWorld.
Proof.
  apply (X6_resolution_ignores_formatting unregisteredClient
           "+62 812-3456-7890" "(62) 8123 4567 890" readyWorld);
    [reflexivity | reflexivity | reflexivity | discriminate].
Defined.

(** X7: a direct user's id written out, a non-empty number of digits
    followed by [@c.us], resolves exactly as the bare number does: the same
    lookup, the same outcome. *)
Theorem X7_direct_user_id_resolves_as_its_number ext n w :
  forallString isDigit n = true ->
  n <> "" ->
  resolveChatId ext (JStr (n ++ "@c.us")) w = resolveChatId ext (JStr n) w.
Proof.
  intros Hd Hne.
  assert (Hat : includes "@" n = false) by (apply includes_at_digits, Hd).
  assert (Hp : parseChatTarget (JStr (n ++ "@c.us"))
               = inr (mkTarget (JStr (n ++ "@c.us")) (n ++ "@c.us") (Some true))).
  { unfold parseChatTarget. rewrite (trim_digits_suffix n Hd).
    rewrite includes_app, endsWith_app, orb_true_r.
    destruct (String.eqb_spec (n ++ "@c.us") "") as [E|_]; [|reflexivity].
    destruct n; discriminate E. }
  assert (Hl : lookupNumber (mkTarget (JStr (n ++ "@c.us")) (n ++ "@c.us") (Some true))
               = n).
  { unfold lookupNumber, normalizePhoneNumber. simpl normalizedNumber.
    rewrite (replaceFirst_suffix n Hat). apply filter_digits, Hd. }
  pose proof (resolve_direct ext _ _ w Hp eq_refl) as R1. rewrite Hl in R1.
  pose proof (resolve_direct ext _ _ w (parse_digits n Hd Hne) eq_refl) as R2.
  rewrite (lookupNumber_digits n Hd) in R2.
  rewrite (R1 Hne), (R2 Hne). reflexivity.
Qed.

Lemma X7_witness_written_out_id :
  resolveChatId registeredClient (JStr "628111@c.us") readyWorld
  = resolveChatId registeredClient (JStr "628111") readyWorld.
Proof.
  apply (X7_direct_user_id_resolves_as_its_number registeredClient "628111"
           readyWorld); [reflexivity | discriminate].
Defined.

(* ===================================================================== *)
(** ** More about POST /api/send-message *)
(* ===================================================================== *)

(** X8: when the client is ready and [number] or [message] is missing or
    falsy (absent, [null], the empty string, zero), the answer is the 400
    that asks for both, and nothing is looked up or sent. *)
Theorem X8_send_message_requires_both_fields ext number message w :
  clientReady w = true ->
  truthy number = false \/ truthy message = false ->
  postSendMessage ext number message w
  = (mkResponse 400 (BodyFailure "Parameter number dan message harus diisi" None),
     w).
Proof.
  intros Hready H. unfold postSendMessage. rewrite Hready. cbn [negb].
  destruct H as [H|H]; rewrite H; cbn [negb orb]; [reflexivity|].
  rewrite orb_true_r. reflexivity.
Qed.

Lemma X8_witness_empty_message :
  postSendMessage registeredClient (JStr "6281234567890") (JStr "") readyWorld
  = (mkResponse 400 (BodyFailure "Parameter number dan message harus diisi" None),
     readyWorld).
Proof.
  apply (X8_send_message_requires_both_fields registeredClient
           (JStr "6281234567890") (JStr "") readyWorld);
    [reflexivity | right; reflexivity].
Defined.

Lemma send_message_send_count ext number message w :
  let r := postSendMessage ext number message w in
  (status (fst r) = 200 \/ status (fst r) = 400 \/ status (fst r) = 500)
  /\ sendsOf (eventsSince w (snd r))
     = (if status (fst r) =? 400 then 0 else 1)%nat.
Proof.
  cbv zeta. unfold postSendMessage.
  destruct (clientReady w); cbn [negb];
    [|simpl; rewrite eventsSince_same; auto].
  destruct (negb (truthy number) || negb (truthy message));
    [simpl; rewrite eventsSince_same; auto|].
  destruct (resolve_sends_nothing ext number w) as (p & evs & R & Hs).
  unfold respond, bind. rewrite R.
  destruct p as [err|target].
  { simpl. rewrite eventsSince_extend, Hs. auto. }
  unfold call, serializedId, bind, lift, ret.
  assert (Hone : sendsOf
            (eventsSince w (emit (EvSendMessage (chatId target) message)
                                 (extend evs w))) = 1).
  { change (emit (EvSendMessage (chatId target) message) (extend evs w))
      with (extend [EvSendMessage (chatId target) message] (extend evs w)).
    rewrite extend_extend, eventsSince_extend, sendsOf_app, Hs. reflexivity. }
  destruct (sendMessage ext _ _ _) as [result|e]; [|simpl; rewrite Hone; auto].
  destruct (member result "id") as [id|e]; [|simpl; rewrite Hone; auto].
  destruct (member id "_serialized") as [mid|e]; simpl; rewrite Hone; auto.
Qed.

(** X9: POST /api/send-message calls [client.sendMessage] at most once; an
    answer of 400 means that it was not called at all, and an answer of 200
    that it was called exactly once. *)
Theorem X9_send_message_sends_at_most_once ext number message w :
  let r := postSendMessage ext number message w in
  sendsOf (eventsSince w (snd r)) <= 1
  /\ (status (fst r) = 400 -> sendsOf (eventsSince w (snd r)) = 0)
  /\ (status (fst r) = 200 -> sendsOf (eventsSince w (snd r)) = 1).
Proof.
  cbv zeta.
  destruct (send_message_send_count ext number message w) as [_ H].
  cbv zeta in H. rewrite H.
  destruct (Nat.eqb_spec (status (fst (postSendMessage ext number message w))) 400)
    as [E|E].
  - split; [lia|]. split; [reflexivity|]. rewrite E. discriminate.
  - split; [lia|]. split; [intros H400; contradiction | reflexivity].
Qed.

Lemma X9_witness_not_ready_and_sent :
  sendsOf (eventsSince startWorld
             (snd (postSendMessage registeredClient (JStr "6281234567890")
                     (JStr "Hello dari API!") startWorld))) = 0
  /\ sendsOf (eventsSince readyWorld
                (snd (postSendMessage registeredClient (JStr "6281234567890")
                        (JStr "Hello dari API!") readyWorld))) = 1.
Proof.
  split.
  - apply (proj1 (proj2 (X9_send_message_sends_at_most_once registeredClient
                           (JStr "6281234567890") (JStr "Hello dari API!")
                           startWorld))).
    reflexivity.
  - apply (proj2 (proj2 (X9_send_message_sends_at_most_once registeredClient
                           (JStr "6281234567890") (JStr "Hello dari API!")
                           readyWorld))).
    reflexivity.
Defined.

(** X10: once the fields are given and the client is ready, the answer
    follows the resolver and the send: a resolver error becomes a 400 with
    the resolver's text and no send; a send that throws becomes a 500 that
    passes the error's message on; a send that returns a result with
    [id._serialized] becomes a 200 with that message id and the target's
    normalized number. *)
Theorem X10_send_message_maps_outcomes ext number message w p w1 :
  clientReady w = true ->
  truthy number = true ->
  truthy message = true ->
  resolveChatId ext number w = (Returns p, w1) ->
  match p with
  | inl err =>
      postSendMessage ext number message w
      = (mkResponse 400 (BodyFailure err None), w1)
  | inr target =>
      let w2 := emit (EvSendMessage (chatId target) message) w1 in
      match sendMessage ext (history w1) (chatId target) message with
      | Throws e =>
          postSendMessage ext number message w
          = (mkResponse 500 (BodyFailure "Gagal mengirim pesan" (Some e)), w2)
      | Returns result =>
          forall id mid,
            member result "id" = Returns id ->
            member id "_serialized" = Returns mid ->
            postSendMessage ext number message w
            = (mkResponse 200 (BodySent mid (normalizedNumber target)), w2)
      end
  end.
Proof.
  intros Hready Hn Hm R.
  unfold postSendMessage. rewrite Hready, Hn, Hm. cbn [negb orb].
  unfold respond, bind. rewrite R.
  destruct p as [err|target]; [reflexivity|].
  cbv zeta. unfold call, serializedId, bind, lift, ret.
  destruct (sendMessage ext _ _ _) as [result|e]; [|reflexivity].
  intros id mid Hid Hmid. rewrite Hid, Hmid. reflexivity.
Qed.

Lemma X10_witness_unregistered_and_sent :
  postSendMessage unregisteredClient (JStr "6281234567890")
    (JStr "Hello dari API!") readyWorld
  = (mkResponse 400
       (BodyFailure "Nomor 6281234567890 tidak terdaftar di WhatsApp" None),
     emit (EvGetNumberId "6281234567890") readyWorld)
  /\
  postSendMessage registeredClient (JStr "6281234567890")
    (JStr "Hello dari API!") readyWorld
  = (mkResponse 200 (BodySent (JStr "3EB0C767F26EE5B6D123") "6281234567890"),
     mkWorld None true true true
       [ EvGetNumberId "6281234567890";
         EvSendMessage (JStr "6281234567890@c.us") (JStr "Hello dari API!") ]).
Proof.
  split.
  - apply (X10_send_message_maps_outcomes unregisteredClient
             (JStr "6281234567890") (JStr "Hello dari API!") readyWorld
             (inl "Nomor 6281234567890 tidak terdaftar di WhatsApp")
             (emit (EvGetNumberId "6281234567890") readyWorld));
      reflexivity.
  - apply (X10_send_message_maps_outcomes registeredClient
             (JStr "6281234567890") (JStr "Hello dari API!") readyWorld
             (inr (mkTarget (JStr "6281234567890@c.us") "6281234567890" None))
             (emit (EvGetNumberId "6281234567890") readyWorld)
             eq_refl eq_refl eq_refl eq_refl
             (JObj [("_serialized", JStr "3EB0C767F26EE5B6D123")])
             (JStr "3EB0C767F26EE5B6D123"));
      reflexivity.
Defined.

(* ===================================================================== *)
(** ** More about POST /api/send-batch-message *)
(* ===================================================================== *)

(** X11: the batch handler answers 400 in exactly three situations: the
    client is not ready, [recipients] is not a non-empty array, or every
    recipient is a string and the shared message is missing. A 400 is
    always decided before anything is done: the world is unchanged. *)
Theorem X11_batch_400_fails_fast ext recipients message delay w :
  let r := postSendBatchMessage ext recipients message delay w in
  (status (fst r) = 400 <->
   clientReady w = false
   \/ (forall first others, recipients <> JArr (first :: others))
   \/ (exists items, recipients = JArr items
                     /\ forallb isString items = true
                     /\ truthy message = false))
  /\ (status (fst r) = 400 -> snd r = w).
Proof.
  cbv zeta. unfold postSendBatchMessage.
  destruct (clientReady w); cbn [negb];
    [|split; [split; auto | reflexivity]].
  assert (Hbad : forall v,
            (forall first others, v <> JArr (first :: others)) ->
            (status (mkResponse 400
                       (BodyFailure
                          "Parameter recipients harus berupa array dan tidak boleh kosong"
                          None)) = 400 <->
             true = false
             \/ (forall first others, v <> JArr (first :: others))
             \/ (exists items, v = JArr items
                               /\ forallb isString items = true
                               /\ truthy message = false))).
  { intros v Hv. split; auto. }
  destruct recipients as [| |b|z|s|items|fields];
    try (split; [apply Hbad; discriminate | reflexivity]).
  destruct items as [|first others];
    [split; [apply Hbad; discriminate | reflexivity]|].
  destruct (forallb isString (first :: others)) eqn:Hstr; cbn [andb].
  - destruct (truthy message) eqn:Hm; cbn [negb].
    + unfold respond, bind, ret.
      destruct (batchLoop _ _ _ _ _ _ _ _) as [[t|e] w1]; simpl;
        (split; [|discriminate]); split; try discriminate;
        intros [H|[H|(items & Hi & _ & H)]]; try discriminate;
        exfalso; apply (H first others); reflexivity.
    + split; [|reflexivity]. split; [|reflexivity].
      intros _. right. right. exists (first :: others). auto.
  - unfold respond, bind, ret.
    destruct (batchLoop _ _ _ _ _ _ _ _) as [[t|e] w1]; simpl;
      (split; [|discriminate]); split; try discriminate;
      intros [H|[H|(items & Hi & Hs & _)]]; try discriminate;
      try (exfalso; apply (H first others); reflexivity);
      injection Hi as <-; rewrite Hstr in Hs; discriminate.
Qed.

(** X12: for a ready client and a non-empty array that passes the message
    check, a [null] among the recipients makes the answer a 500; and an
    answer of 200 means that no recipient is [null], that there is one
    result per recipient, that [total] is their number, that
    [sent + failed = total], and that [sent] is the number of results
    flagged as successful. *)
Theorem X12_batch_tallies_on_completion ext first others message delay w :
  clientReady w = true ->
  forallb isString (first :: others) && negb (truthy message) = false ->
  (In JNull (first :: others) ->
   status (fst (postSendBatchMessage ext (JArr (first :: others)) message delay w))
   = 500)
  /\
  (forall total sent failed rs w',
     postSendBatchMessage ext (JArr (first :: others)) message delay w
     = (mkResponse 200 (BodyBatch total sent failed rs), w') ->
     ~ In JNull (first :: others)
     /\ total = length (first :: others)
     /\ length rs = length (first :: others)
     /\ sent + failed = total
     /\ sent = length (filter success rs)).
Proof.
  intros Hready Hcheck. split.
  - apply batch_aborts_on_null, Hready.
  - intros total sent failed rs w' Hpost.
    destruct (batch_tally_on_completion _ _ _ _ _ _ _ _ _ _ Hpost)
      as ((items & Hitems & Htotal) & Hlen & Hsum & Hsent).
    injection Hitems as <-.
    split; [|repeat split; congruence].
    intros Hnull.
    pose proof (batch_aborts_on_null ext _ message delay w Hready Hnull) as H500.
    rewrite Hpost in H500. discriminate H500.
Qed.

Lemma X12_witness_null_and_mixed :
  status (fst (postSendBatchMessage registeredClient
                 (JArr [JStr "628111"; JNull]) (JStr "hi") None readyWorld))
  = 500
  /\
  (~ In JNull [JStr "628111"; JObj []; JStr "628222"]
   /\ 3 = length [JStr "628111"; JObj []; JStr "628222"]
   /\ length
        [ mkItemResult (JStr "628111") true (JStr "3EB0C767F26EE5B6D123") JNull;
          mkItemResult (JObj []) false JNull (JStr "Format recipient tidak valid");
          mkItemResult (JStr "628222") true (JStr "3EB0C767F26EE5B6D123") JNull ]
      = length [JStr "628111"; JObj []; JStr "628222"]
   /\ 2 + 1 = 3
   /\ 2 = length
            (filter success
               [ mkItemResult (JStr "628111") true (JStr "3EB0C767F26EE5B6D123")
                   JNull;
                 mkItemResult (JObj []) false JNull
                   (JStr "Format recipient tidak valid");
                 mkItemResult (JStr "628222") true (JStr "3EB0C767F26EE5B6D123")
                   JNull ])).
Proof.
  split.
  - apply (proj1 (X12_batch_tallies_on_completion registeredClient
                    (JStr "628111") [JNull] (JStr "hi") None readyWorld
                    eq_refl eq_refl)).
    right. left. reflexivity.
  - apply (proj2 (X12_batch_tallies_on_completion registeredClient
                    (JStr "628111") [JObj []; JStr "628222"] (JStr "hi")
                    (Some 50%Z) readyWorld eq_refl eq_refl)
                 3 2 1 _
                 (mkWorld None true true true
                    [ EvGetNumberId "628111";
                      EvSendMessage (JStr "628111@c.us") (JStr "hi");
                      EvSleep 100;
                      EvGetNumberId "628222";
                      EvSendMessage (JStr "628222@c.us") (JStr "hi") ])).
    reflexivity.
Defined.

Lemma attemptSend_shape ext len i d targetNumber targetMessage w :
  exists r seg,
    (forall t, attemptSend ext len i d targetNumber targetMessage t w
               = (Returns (push r t), extend seg w))
    /\ itemShape targetNumber r seg.
Proof.
  destruct (resolve_sends_nothing ext targetNumber w) as (p & evs & R & S0).
  unfold itemShape.
  destruct p as [err|target].
  { exists (mkItemResult targetNumber false JNull (JStr err)), evs.
    split; [run_attempt R|]. rewrite S0. simpl. repeat split; auto; discriminate. }
  set (calls := (evs ++ [EvSendMessage (chatId target) targetMessage])%list).
  assert (Hs : sendsOf calls = 1).
  { unfold calls. rewrite sendsOf_app, S0. reflexivity. }
  assert (Hfailed : forall e,
            (forall t, attemptSend ext len i d targetNumber targetMessage t w
                       = (Returns (pushFailed targetNumber e t), extend calls w)) ->
            exists r seg,
              (forall t, attemptSend ext len i d targetNumber targetMessage t w
                         = (Returns (push r t), extend seg w))
              /\ wellFormed r = true
              /\ sendsOf seg <= 1
              /\ (success r = true -> sendsOf seg = 1)
              /\ (success r = false -> number r = targetNumber)).
  { intros e H. exists (mkItemResult targetNumber false JNull e), calls.
    split; [exact H|]. rewrite Hs. simpl. repeat split; auto; discriminate. }
  subst calls.
  destruct (sendMessage ext (history w ++ evs) (chatId target) targetMessage)
    as [result|e] eqn:Esend; [|apply (Hfailed e); run_attempt R].
  destruct (member result "id") as [id|e] eqn:Eid;
    [|apply (Hfailed e); run_attempt R].
  destruct (member id "_serialized") as [serialized|e] eqn:Eser;
    [|apply (Hfailed e); run_attempt R].
  exists (mkItemResult (JStr (normalizedNumber target)) true serialized JNull).
  destruct (i <? len - 1)%nat eqn:Elast.
  - exists ((evs ++ [EvSendMessage (chatId target) targetMessage])
            ++ [EvSleep d])%list.
    split; [run_attempt R|].
    rewrite sendsOf_app, Hs. simpl. repeat split; auto; discriminate.
  - exists (evs ++ [EvSendMessage (chatId target) targetMessage])%list.
    split; [run_attempt R|].
    rewrite Hs. simpl. repeat split; auto; discriminate.
Qed.

(** The loop body on a recipient that is [null]-free and not a string: an
    object with a truthy [number] and a truthy [message] goes to the inner
    [try] with these two; everything else is recorded as invalid. *)
Lemma batchItem_non_string ext len i message d recipient t w :
  recipient <> JNull ->
  typeof recipient <> "string" ->
  batchItem ext len i message d recipient t w
  = if isPairValue recipient
    then attemptSend ext len i d (optMember recipient "number")
                     (optMember recipient "message") t w
    else (Returns (push (invalidFormat recipient) t), w).
Proof.
  intros Hnull Hstr.
  destruct recipient as [| |b|z|s|l|fields]; try reflexivity; try congruence.
  - contradiction Hstr. reflexivity.
  - unfold batchItem, isPair, isPairValue, bind, lift, member, ret, optMember.
    simpl typeof. simpl.
    destruct (truthy (lookupField "number" fields)); [|reflexivity].
    destruct (truthy (lookupField "message" fields)); reflexivity.
Qed.

Lemma batchItem_shape ext len i message d recipient w :
  recipient <> JNull ->
  exists r seg,
    itemRun ext len message d i recipient w r seg
    /\ wellFormed r = true
    /\ sendsOf seg <= 1
    /\ (success r = true -> sendsOf seg = 1).
Proof.
  intros Hnull.
  destruct (String.eqb_spec (typeof recipient) "string") as [Hs|Hs].
  - destruct recipient; try discriminate Hs.
    destruct (attemptSend_shape ext len i d (JStr s) message w)
      as (r & seg & Hrun & Hw & Hle & Hone & _).
    exists r, seg. repeat split; assumption.
  - destruct (isPairValue recipient) eqn:Hp.
    + destruct (attemptSend_shape ext len i d (optMember recipient "number")
                  (optMember recipient "message") w)
        as (r & seg & Hrun & Hw & Hle & Hone & _).
      exists r, seg. repeat split; try assumption.
      intros t. rewrite (batchItem_non_string _ _ _ _ _ _ _ _ Hnull Hs), Hp.
      apply Hrun.
    + exists (invalidFormat recipient), [].
      repeat split; try (simpl; auto; discriminate).
      intros t. rewrite (batchItem_non_string _ _ _ _ _ _ _ _ Hnull Hs), Hp.
      rewrite extend_nil. reflexivity.
Qed.

(** Two descriptions of the same item agree. *)
Lemma itemRun_unique ext len message d i recipient w r seg r' seg' :
  itemRun ext len message d i recipient w r seg ->
  itemRun ext len message d i recipient w r' seg' ->
  r = r' /\ seg = seg'.
Proof.
  intros H H'.
  specialize (H (mkTally [] 0 0)). specialize (H' (mkTally [] 0 0)).
  rewrite H in H'.
  assert (Hr : push r (mkTally [] 0 0) = push r' (mkTally [] 0 0)) by congruence.
  assert (Hw : extend seg w = extend seg' w) by congruence.
  split; [exact (push_inj _ _ _ Hr) | exact (extend_inj _ _ _ Hw)].
Qed.

Lemma dispatched_shape ext len message d i rest w rs segs :
  dispatched ext len message d i rest w rs segs ->
  forallb wellFormed rs = true
  /\ sendsOf (concat segs) <= length rs
  /\ length (filter success rs) <= sendsOf (concat segs).
Proof.
  induction 1 as [|i recipient rest w r seg rs segs Hrun D (IHw & IHle & IHge)].
  - simpl. auto.
  - destruct (itemRun_inv _ _ _ _ _ _ _ _ _ Hrun) as [Hnull _].
    destruct (batchItem_shape ext len i message d recipient w Hnull)
      as (r' & seg' & Hrun' & Hw & Hle & Hone).
    destruct (itemRun_unique _ _ _ _ _ _ _ _ _ _ _ Hrun Hrun') as [<- <-].
    simpl concat. rewrite sendsOf_app. simpl forallb. rewrite Hw, IHw.
    simpl filter. simpl length.
    destruct (success r); [specialize (Hone eq_refl)|]; simpl; repeat split; lia.
Qed.

(** X13: in a batch that completes, a recipient that is not a string, not
    [null] and not an object with a truthy [number] and a truthy [message]
    (a number, a boolean, an array, [{}], an object with an empty message)
    gets the failed result 'Format recipient tidak valid' at its own index,
    and the loop body does nothing else for it: no lookup, no send, no
    pause. *)
Theorem X13_invalid_recipient_is_recorded ext recipients message delay w
    total sent failed rs w' items k recipient :
  postSendBatchMessage ext recipients message delay w
  = (mkResponse 200 (BodyBatch total sent failed rs), w') ->
  recipients = JArr items ->
  nth_error items k = Some recipient ->
  recipient <> JNull ->
  typeof recipient <> "string" ->
  isPairValue recipient = false ->
  nth_error rs k = Some (invalidFormat recipient)
  /\ (forall len i d t w0,
        batchItem ext len i message d recipient t w0
        = (Returns (push (invalidFormat recipient) t), w0)).
Proof.
  intros Hpost -> Hk Hnull Hstr Hpair. split.
  - apply batch_answer_inv in Hpost.
    destruct Hpost as (items' & t & Hitems & L & _ & _ & _ & ->).
    injection Hitems as <-.
    apply batchLoop_returns in L. destruct L as (rs & segs & D & -> & ->).
    destruct (dispatched_nth _ _ _ _ _ _ _ _ _ D k recipient Hk)
      as (pre & seg & post & r & _ & Hrun & Hn).
    rewrite pushAll_results. simpl app. rewrite Hn. f_equal.
    specialize (Hrun (mkTally [] 0 0)).
    rewrite (batchItem_non_string _ _ _ _ _ _ _ _ Hnull Hstr), Hpair in Hrun.
    assert (Hr : push (invalidFormat recipient) (mkTally [] 0 0)
                 = push r (mkTally [] 0 0)) by congruence.
    symmetry. exact (push_inj _ _ _ Hr).
  - intros len i d t w0.
    rewrite (batchItem_non_string _ _ _ _ _ _ _ _ Hnull Hstr), Hpair.
    reflexivity.
Qed.

Lemma X13_witness_empty_object :
  nth_error
    [ mkItemResult (JStr "628111") true (JStr "3EB0C767F26EE5B6D123") JNull;
      mkItemResult (JObj []) false JNull (JStr "Format recipient tidak valid");
      mkItemResult (JStr "628222") true (JStr "3EB0C767F26EE5B6D123") JNull ] 1
  = Some (invalidFormat (JObj []))
  /\ (forall len i d t w0,
        batchItem registeredClient len i (JStr "hi") d (JObj []) t w0
        = (Returns (push (invalidFormat (JObj [])) t), w0)).
Proof.
  apply (X13_invalid_recipient_is_recorded registeredClient
           (JArr [JStr "628111"; JObj []; JStr "628222"]) (JStr "hi") (Some 50%Z)
           readyWorld _ _ _ _ _ [JStr "628111"; JObj []; JStr "628222"] 1 (JObj [])
           eq_refl eq_refl eq_refl);
    [discriminate | discriminate | reflexivity].
Defined.

(** X14: in a batch that completes, an object recipient with a truthy
    [number] and a truthy [message] is processed by the inner [try] with its
    own number and its own message; the shared top-level message plays no
    part. Its result stands at its own index, and if the resolver returns a
    target for its number, the run contains the send of its own message to
    that target. *)
Theorem X14_object_recipient_uses_its_own_message ext recipients message delay w
    total sent failed rs w' items k fields :
  postSendBatchMessage ext recipients message delay w
  = (mkResponse 200 (BodyBatch total sent failed rs), w') ->
  recipients = JArr items ->
  nth_error items k = Some (JObj fields) ->
  truthy (lookupField "number" fields) = true ->
  truthy (lookupField "message" fields) = true ->
  exists pre seg post r,
    eventsSince w w' = (pre ++ seg ++ post)%list
    /\ (forall t,
          attemptSend ext (length items) k (delayMs delay)
            (lookupField "number" fields) (lookupField "message" fields) t
            (extend pre w)
          = (Returns (push r t), extend seg (extend pre w)))
    /\ nth_error rs k = Some r
    /\ (forall target w2,
          resolveChatId ext (lookupField "number" fields) (extend pre w)
          = (Returns (inr target), w2) ->
          In (EvSendMessage (chatId target) (lookupField "message" fields)) seg).
Proof.
  intros Hpost -> Hk Hn Hm.
  apply batch_answer_inv in Hpost.
  destruct Hpost as (items' & t & Hitems & L & _ & _ & _ & ->).
  injection Hitems as <-.
  apply batchLoop_returns in L. destruct L as (rs & segs & D & -> & ->).
  destruct (dispatched_nth _ _ _ _ _ _ _ _ _ D k (JObj fields) Hk)
    as (pre & seg & post & r & Hc & Hrun & Hnth).
  assert (Hpair : isPairValue (JObj fields) = true).
  { unfold isPairValue. simpl. rewrite Hn, Hm. reflexivity. }
  assert (Hrun' : forall t,
            attemptSend ext (length items) k (delayMs delay)
              (lookupField "number" fields) (lookupField "message" fields) t
              (extend pre w)
            = (Returns (push r t), extend seg (extend pre w))).
  { intros t0. rewrite <- (Hrun t0).
    rewrite (batchItem_non_string ext _ _ _ _ (JObj fields) t0 _
               ltac:(discriminate) ltac:(discriminate)), Hpair.
    reflexivity. }
  exists pre, seg, post, r.
  rewrite eventsSince_extend, pushAll_results.
  repeat split; try assumption.
  destruct (attemptSend_spec ext (length items) k (delayMs delay)
              (lookupField "number" fields) (lookupField "message" fields)
              (extend pre w)) as (r2 & seg2 & Hrun2 & _ & Hin).
  specialize (Hrun' (mkTally [] 0 0)). specialize (Hrun2 (mkTally [] 0 0)).
  rewrite Hrun' in Hrun2.
  assert (Hw : extend seg (extend pre w) = extend seg2 (extend pre w))
    by congruence.
  apply extend_inj in Hw. subst seg2. exact Hin.
Qed.

Lemma X14_witness_custom_message :
  exists pre seg post r,
    [ EvGetNumberId "628111"; EvSendMessage (JStr "628111@c.us") (JStr "hi");
      EvSleep 1000;
      EvGetNumberId "628222"; EvSendMessage (JStr "628222@c.us") (JStr "custom") ]
    = (pre ++ seg ++ post)%list
    /\ (forall t,
          attemptSend registeredClient 2 1 1000 (JStr "628222") (JStr "custom") t
            (extend pre readyWorld)
          = (Returns (push r t), extend seg (extend pre readyWorld)))
    /\ nth_error
         [ mkItemResult (JStr "628111") true (JStr "3EB0C767F26EE5B6D123") JNull;
           mkItemResult (JStr "628222") true (JStr "3EB0C767F26EE5B6D123") JNull ]
         1 = Some r
    /\ (forall target w2,
          resolveChatId registeredClient (JStr "628222") (extend pre readyWorld)
          = (Returns (inr target), w2) ->
          In (EvSendMessage (chatId target) (JStr "custom")) seg).
Proof.
  exact (X14_object_recipient_uses_its_own_message registeredClient
           (JArr [JStr "628111";
                  JObj [("number", JStr "628222"); ("message", JStr "custom")]])
           (JStr "hi") None readyWorld _ _ _ _ _ _ 1
           [("number", JStr "628222"); ("message", JStr "custom")]
           eq_refl eq_refl eq_refl eq_refl eq_refl).
Defined.

(** X15: in a batch that completes, every result is well formed (a sent one
    has [error: null], a failed one [messageId: null]), and the number of
    [client.sendMessage] calls lies between [sent] and [total]: every result
    counted as sent had its send, and no recipient is sent to twice. *)
Theorem X15_batch_sends_are_bounded ext recipients message delay w
    total sent failed rs w' :
  postSendBatchMessage ext recipients message delay w
  = (mkResponse 200 (BodyBatch total sent failed rs), w') ->
  forallb wellFormed rs = true
  /\ sent <= sendsOf (eventsSince w w')
  /\ sendsOf (eventsSince w w') <= total.
Proof.
  intros Hpost.
  destruct (batch_tally_on_completion _ _ _ _ _ _ _ _ _ _ Hpost)
    as (_ & Hlen & _ & Hsent).
  apply batch_answer_inv in Hpost.
  destruct Hpost as (items & t & -> & L & -> & _ & _ & ->).
  apply batchLoop_returns in L. destruct L as (rs & segs & D & -> & ->).
  destruct (dispatched_shape _ _ _ _ _ _ _ _ _ D) as (Hw & Hle & Hge).
  rewrite pushAll_results in *. simpl app in *.
  rewrite eventsSince_extend. repeat split; [exact Hw | lia | lia].
Qed.

Lemma X15_witness_three_recipients :
  forallb wellFormed
    [ mkItemResult (JStr "628111") true (JStr "3EB0C767F26EE5B6D123") JNull;
      mkItemResult (JObj []) false JNull (JStr "Format recipient tidak valid");
      mkItemResult (JStr "628222") true (JStr "3EB0C767F26EE5B6D123") JNull ]
  = true
  /\ 2 <= sendsOf
            [ EvGetNumberId "628111";
              EvSendMessage (JStr "628111@c.us") (JStr "hi"); EvSleep 100;
              EvGetNumberId "628222";
              EvSendMessage (JStr "628222@c.us") (JStr "hi") ]
  /\ sendsOf
       [ EvGetNumberId "628111";
         EvSendMessage (JStr "628111@c.us") (JStr "hi"); EvSleep 100;
         EvGetNumberId "628222";
         EvSendMessage (JStr "628222@c.us") (JStr "hi") ] <= 3.
Proof.
  exact (X15_batch_sends_are_bounded registeredClient
           (JArr [JStr "628111"; JObj []; JStr "628222"]) (JStr "hi") (Some 50%Z)
           readyWorld _ _ _ _ _ eq_refl).
Defined.

(** X16: in a batch that completes, the failed result of a string recipient
    names that recipient as it was given: its [number] is the input string
    itself, not a normalized form, and its [messageId] is [null]. *)
Theorem X16_failed_result_names_its_recipient ext recipients message delay w
    total sent failed rs w' items k s :
  postSendBatchMessage ext recipients message delay w
  = (mkResponse 200 (BodyBatch total sent failed rs), w') ->
  recipients = JArr items ->
  nth_error items k = Some (JStr s) ->
  exists r,
    nth_error rs k = Some r
    /\ (success r = false -> number r = JStr s /\ messageId r = JNull).
Proof.
  intros Hpost -> Hk.
  apply batch_answer_inv in Hpost.
  destruct Hpost as (items' & t & Hitems & L & _ & _ & _ & ->).
  injection Hitems as <-.
  apply batchLoop_returns in L. destruct L as (rs & segs & D & -> & ->).
  destruct (dispatched_nth _ _ _ _ _ _ _ _ _ D k (JStr s) Hk)
    as (pre & seg & post & r & _ & Hrun & Hnth).
  exists r. rewrite pushAll_results. split; [exact Hnth|].
  destruct (attemptSend_shape ext (length items) k (delayMs delay) (JStr s)
              message (extend pre w)) as (r' & seg' & Hrun' & Hw & _ & _ & Hnum).
  destruct (itemRun_unique _ _ _ _ _ _ _ _ _ _ _ Hrun Hrun') as [<- _].
  intros Hf. split; [exact (Hnum Hf)|].
  unfold wellFormed in Hw. rewrite Hf in Hw.
  destruct (messageId r); try discriminate Hw. reflexivity.
Qed.

Lemma X16_witness_unregistered_string :
  exists r,
    nth_error
      [ mkItemResult (JStr "+62 811") false JNull
          (JStr "Nomor 62811 tidak terdaftar di WhatsApp") ] 0 = Some r
    /\ (success r = false -> number r = JStr "+62 811" /\ messageId r = JNull).
Proof.
  exact (X16_failed_result_names_its_recipient unregisteredClient
           (JArr [JStr "+62 811"]) (JStr "hi") None readyWorld _ _ _ _ _
           [JStr "+62 811"] 0 "+62 811" eq_refl eq_refl eq_refl).
Defined.

(** X17: a requested delay between 100 and 10000 is used as it is; a
    smaller one other than zero becomes 100, a larger one 10000; and among
    requested delays other than zero a longer request never gives a shorter
    pause. *)
Theorem X17_delay_is_kept_in_range d :
  ((100 <= d <= 10000)%Z -> delayMs (Some d) = d)
  /\ ((d < 100)%Z -> d <> 0%Z -> delayMs (Some d) = 100%Z)
  /\ ((10000 < d)%Z -> delayMs (Some d) = 10000%Z)
  /\ (forall d', d <> 0%Z -> d' <> 0%Z -> (d <= d')%Z ->
        (delayMs (Some d) <= delayMs (Some d'))%Z).
Proof.
  unfold delayMs. repeat split.
  - intros H. destruct (Z.eqb_spec d 0); lia.
  - intros H H0. destruct (Z.eqb_spec d 0); lia.
  - intros H. destruct (Z.eqb_spec d 0); lia.
  - intros d' H0 H0' Hle.
    destruct (Z.eqb_spec d 0); destruct (Z.eqb_spec d' 0); lia.
Qed.

Lemma X17_witness_half_second :
  delayMs (Some 500%Z) = 500%Z
  /\ delayMs (Some (-5)%Z) = 100%Z
  /\ delayMs (Some 60000%Z) = 10000%Z
  /\ (delayMs (Some 500%Z) <= delayMs (Some 2000%Z))%Z.
Proof.
  split; [|split; [|split]].
  - apply (proj1 (X17_delay_is_kept_in_range 500)). lia.
  - apply (proj1 (proj2 (X17_delay_is_kept_in_range (-5)))); lia.
  - apply (proj1 (proj2 (proj2 (X17_delay_is_kept_in_range 60000)))). lia.
  - apply (proj2 (proj2 (proj2 (X17_delay_is_kept_in_range 500))) 2000%Z); lia.
Defined.

(* ===================================================================== *)
(** ** GET /api/status, GET /api/qrcode and the lifecycle *)
(* ===================================================================== *)

Lemma prefix_app p b : prefix p (p ++ b) = true.
Proof.
  induction p as [|c r IH]; [destruct b; reflexivity|].
  change (String c r ++ b) with (String c (r ++ b)). cbn [prefix].
  destruct (ascii_dec c c) as [_|H]; [exact IH | contradiction H; reflexivity].
Qed.

Lemma stripPrefix_app p b : stripPrefix p (p ++ b) = b.
Proof.
  unfold stripPrefix. rewrite prefix_app.
  induction p as [|c r IH]; [destruct b; reflexivity | exact IH].
Qed.

(** X18: the two read endpoints agree. While the client is ready,
    /api/qrcode says so and serves no code, whatever [qrCodeData] holds, and
    /api/status reports connected. While it is not ready, /api/qrcode
    answers 404 exactly when /api/status reports [hasQrCode: false]. *)
Theorem X18_status_and_qrcode_agree accept w :
  (clientReady w = true ->
   getQrcode accept w = QrConnected
   /\ connected (getStatus w) = true
   /\ statusText (getStatus w) = "connected")
  /\ (clientReady w = false ->
      statusText (getStatus w) = "disconnected"
      /\ (getQrcode accept w = QrNotReady <-> hasQrCode (getStatus w) = false)).
Proof.
  unfold getQrcode, getStatus, hasQr. split; intros H; rewrite H; simpl.
  - auto.
  - split; [reflexivity|].
    destruct (qrCodeData w) as [url|]; [|split; reflexivity].
    destruct (url =? ""); simpl; [split; reflexivity|].
    destruct (match accept with
              | Some a => negb (a =? "") && includesString "application/json" a
              | None => false
              end); split; discriminate.
Qed.

Lemma X18_witness_ready_and_waiting :
  (getQrcode None readyWorld = QrConnected
   /\ connected (getStatus readyWorld) = true
   /\ statusText (getStatus readyWorld) = "connected")
  /\ (statusText (getStatus startWorld) = "disconnected"
      /\ (getQrcode None startWorld = QrNotReady
          <-> hasQrCode (getStatus startWorld) = false)).
Proof.
  split.
  - apply (proj1 (X18_status_and_qrcode_agree None readyWorld)). reflexivity.
  - apply (proj2 (X18_status_and_qrcode_agree None startWorld)). reflexivity.
Defined.

(** X19: when the encoding of a pairing code settles with a non-empty data
    URL while the client is not ready, that code is what /api/qrcode serves
    from then on: the data URL itself to a caller whose [Accept] header
    includes [application/json], and the base64 text behind the
    [data:image/png;base64,] prefix as the image to every other caller, with
    another [Accept] header or with none; /api/status then reports
    [hasQrCode: true]. *)
Theorem X19_pairing_code_is_served ext q url w :
  clientReady w = false ->
  toDataURL ext q = Returns url ->
  url <> "" ->
  (forall a, includesString "application/json" a = true ->
     getQrcode (Some a) (onTurn ext (Settles q) w) = QrJson url)
  /\ (forall accept b,
        (forall a, accept = Some a ->
                   includesString "application/json" a = false) ->
        url = "data:image/png;base64," ++ b ->
        getQrcode accept (onTurn ext (Settles q) w) = QrImage b)
  /\ hasQrCode (getStatus (onTurn ext (Settles q) w)) = true.
Proof.
  intros Hready Henc Hne. apply String.eqb_neq in Hne.
  assert (Hq : qrCodeData (onTurn ext (Settles q) w) = Some url)
    by (simpl; rewrite Henc; reflexivity).
  assert (Hr : clientReady (onTurn ext (Settles q) w) = false)
    by (simpl; rewrite Henc; exact Hready).
  unfold getQrcode, getStatus, hasQr. rewrite Hq, Hr, Hne.
  cbn [negb hasQrCode]. repeat split.
  - intros a Ha. destruct a as [|c r]; [discriminate Ha|].
    rewrite Ha. reflexivity.
  - intros accept b Hacc Hb.
    assert (Hstrip : stripPrefix "data:image/png;base64," url = b)
      by (rewrite Hb; apply stripPrefix_app).
    destruct accept as [a|]; [|rewrite Hstrip; reflexivity].
    rewrite (Hacc a eq_refl), andb_false_r, Hstrip. reflexivity.
Qed.

Lemma X19_witness_first_pairing_code :
  getQrcode (Some "application/json")
    (onTurn registeredClient (Settles "2@abc") startWorld)
  = QrJson "data:image/png;base64,2@abc"
  /\ getQrcode (Some "text/html,image/png,*/*")
       (onTurn registeredClient (Settles "2@abc") startWorld)
     = QrImage "2@abc"
  /\ getQrcode None (onTurn registeredClient (Settles "2@abc") startWorld)
     = QrImage "2@abc"
  /\ hasQrCode (getStatus (onTurn registeredClient (Settles "2@abc") startWorld))
     = true.
Proof.
  pose proof (X19_pairing_code_is_served registeredClient "2@abc"
                "data:image/png;base64,2@abc" startWorld
                eq_refl eq_refl ltac:(discriminate)) as (Hjson & Himage & Hstatus).
  split; [apply Hjson; reflexivity|].
  split; [apply Himage; [intros a Ha; injection Ha as <-|]; reflexivity|].
  split; [apply Himage; [intros a Ha; discriminate Ha | reflexivity]|].
  exact Hstatus.
Defined.

(** X20: a disconnect or an authentication failure clears the stored code at
    once, so that right after it /api/qrcode answers 404 and /api/status
    reports disconnected without a code; but it does not cancel an encoding
    that is still pending: when the encoding of a pairing code that arrived
    before the disconnect settles after it with a non-empty data URL, that
    code is stored and /api/qrcode serves it, although the session it
    belonged to has ended. An encoding that throws while the client is not
    ready leaves no code to serve. *)
Theorem X20_disconnect_does_not_cancel_a_pending_code ext accept w :
  (forall ev, ev = Disconnected \/ ev = AuthFailure ->
     getQrcode accept (onTurn ext (Arrives ev) w) = QrNotReady
     /\ getStatus (onTurn ext (Arrives ev) w)
        = mkStatusAnswer "disconnected" false notConnected false)
  /\ (forall ev q url,
        ev = Disconnected \/ ev = AuthFailure ->
        toDataURL ext q = Returns url ->
        url <> "" ->
        let w' := runTurns ext [Arrives (Qr q); Arrives ev; Settles q] w in
        qrCodeData w' = Some url
        /\ hasQrCode (getStatus w') = true
        /\ (getQrcode accept w' = QrJson url
            \/ getQrcode accept w'
               = QrImage (stripPrefix "data:image/png;base64," url)))
  /\ (forall q e, clientReady w = false -> toDataURL ext q = Throws e ->
        getQrcode accept (onTurn ext (Settles q) w) = QrNotReady).
Proof.
  split; [|split].
  - intros ev [->| ->]; split; reflexivity.
  - intros ev q url Hev Henc Hne. cbv zeta. apply String.eqb_neq in Hne.
    assert (Hq : qrCodeData (runTurns ext [Arrives (Qr q); Arrives ev; Settles q] w)
                 = Some url)
      by (destruct Hev as [->| ->]; simpl; rewrite Henc; reflexivity).
    assert (Hr : clientReady (runTurns ext [Arrives (Qr q); Arrives ev; Settles q] w)
                 = false)
      by (destruct Hev as [->| ->]; simpl; rewrite Henc; reflexivity).
    unfold getQrcode, getStatus, hasQr. rewrite Hq, Hr, Hne.
    cbn [negb hasQrCode]. repeat split.
    destruct (match accept with
              | Some a => negb (a =? "") && includesString "application/json" a
              | None => false
              end); [left | right]; reflexivity.
  - intros q e Hready Henc. unfold getQrcode, hasQr. simpl.
    rewrite Henc. simpl. rewrite Hready. reflexivity.
Qed.

Lemma X20_witness_disconnect_overtakes_encoding :
  (getQrcode None
     (onTurn registeredClient (Arrives Disconnected)
        (onTurn registeredClient (Settles "2@abc") startWorld)) = QrNotReady
   /\ getStatus
        (onTurn registeredClient (Arrives Disconnected)
           (onTurn registeredClient (Settles "2@abc") startWorld))
      = mkStatusAnswer "disconnected" false notConnected false)
  /\ (qrCodeData
        (runTurns registeredClient
           [Arrives (Qr "2@abc"); Arrives Disconnected; Settles "2@abc"] startWorld)
      = Some "data:image/png;base64,2@abc"
      /\ hasQrCode
           (getStatus
              (runTurns registeredClient
                 [Arrives (Qr "2@abc"); Arrives Disconnected; Settles "2@abc"]
                 startWorld)) = true
      /\ (getQrcode None
            (runTurns registeredClient
               [Arrives (Qr "2@abc"); Arrives Disconnected; Settles "2@abc"]
               startWorld)
          = QrJson "data:image/png;base64,2@abc"
          \/ getQrcode None
               (runTurns registeredClient
                  [Arrives (Qr "2@abc"); Arrives Disconnected; Settles "2@abc"]
                  startWorld)
             = QrImage (stripPrefix "data:image/png;base64,"
                          "data:image/png;base64,2@abc")))
  /\ getQrcode None
       (onTurn flakyClient (Settles "2@def")
          (onTurn registeredClient (Settles "2@abc") startWorld)) = QrNotReady.
Proof.
  split; [|split].
  - apply (proj1 (X20_disconnect_does_not_cancel_a_pending_code registeredClient
                    None (onTurn registeredClient (Settles "2@abc") startWorld))).
    left. reflexivity.
  - apply (proj1 (proj2 (X20_disconnect_does_not_cancel_a_pending_code
                           registeredClient None startWorld))
                 Disconnected "2@abc" "data:image/png;base64,2@abc");
      [left; reflexivity | reflexivity | discriminate].
  - apply (proj2 (proj2 (X20_disconnect_does_not_cancel_a_pending_code flakyClient
                           None
                           (onTurn registeredClient (Settles "2@abc") startWorld)))
                 "2@def" (JStr "encoding failed")); reflexivity.
Defined.

Lemma quiet_signal_keeps_ready ext ev w :
  assignsReady ev = false ->
  clientReady (onClientEvent ext ev w) = clientReady w.
Proof.
  destruct ev; try discriminate; intros _; try reflexivity.
  simpl. destruct (toDataURL ext qr); reflexivity.
Qed.

Lemma quiet_run_keeps_ready ext later : forall w,
  forallb (fun ev => negb (assignsReady ev)) later = true ->
  clientReady (runLifecycle ext later w) = clientReady w.
Proof.
  induction later as [|ev later IH]; intros w H; [reflexivity|].
  simpl in H. apply andb_true_iff in H. destruct H as [Hev Hlater].
  simpl. rewrite (IH _ Hlater). apply quiet_signal_keeps_ready.
  destruct (assignsReady ev); [discriminate Hev | reflexivity].
Qed.

Lemma runLifecycle_app ext a b w :
  runLifecycle ext (a ++ b) w = runLifecycle ext b (runLifecycle ext a w).
Proof. unfold runLifecycle. apply fold_left_app. Qed.

(** X21: [clientReady] after any sequence of lifecycle signals is decided
    by the last ready, auth_failure or disconnected signal in it: true after
    ready, false after the other two. Pairing codes, the authenticated
    signal, loading screens and state changes never alter it; a pairing code
    that arrives while the client is ready leaves it ready. *)
Theorem X21_readiness_follows_last_signal ext before ev later w :
  assignsReady ev = true ->
  forallb (fun ev' => negb (assignsReady ev')) later = true ->
  clientReady (runLifecycle ext (before ++ ev :: later) w)
  = match ev with Ready => true | _ => false end.
Proof.
  intros Hev Hlater.
  rewrite runLifecycle_app.
  change (runLifecycle ext (ev :: later) (runLifecycle ext before w))
    with (runLifecycle ext later
            (onClientEvent ext ev (runLifecycle ext before w))).
  rewrite (quiet_run_keeps_ready _ _ _ Hlater).
  destruct ev; try discriminate Hev; reflexivity.
Qed.

Lemma X21_witness_code_while_ready :
  clientReady
    (runLifecycle registeredClient
       ([Qr "2@abc"; Authenticated] ++ Ready :: [ChangeState; Qr "2@def"])
       startWorld) = true.
Proof.
  apply (X21_readiness_follows_last_signal registeredClient
           [Qr "2@abc"; Authenticated] Ready [ChangeState; Qr "2@def"] startWorld);
    reflexivity.
Defined.

(* ===================================================================== *)
(** ** POST /api/logout and POST /api/clear-session *)
(* ===================================================================== *)

(** X22: when [client.logout()] throws, or [client.destroy()] throws after
    it, POST /api/logout answers 500 with the error's message and stops
    there: [clientReady] and the QR code are as they were, the session
    folder is untouched and no re-initialization is scheduled. After a
    failed logout the teardown is not even attempted. *)
Theorem X22_failed_logout_changes_nothing ext w e :
  client w = true ->
  logout ext (history w) = Throws e
  \/ (logout ext (history w) = Returns tt
      /\ destroy ext (history w ++ [EvLogout]) = Throws e) ->
  fst (postLogout ext w) = mkResponse 500 (BodyFailure "Gagal logout" (Some e))
  /\ clientReady (snd (postLogout ext w)) = clientReady w
  /\ qrCodeData (snd (postLogout ext w)) = qrCodeData w
  /\ sessionFolder (snd (postLogout ext w)) = sessionFolder w
  /\ ~ In (EvScheduleInit 2000) (eventsSince w (snd (postLogout ext w)))
  /\ (logout ext (history w) = Throws e ->
      eventsSince w (snd (postLogout ext w)) = [EvLogout]).
Proof.
  intros Hc H. unfold postLogout, respond, bind, call. rewrite Hc.
  destruct H as [Hl|[Hl Hd]]; rewrite Hl; simpl.
  - change (emit EvLogout w) with (extend [EvLogout] w).
    rewrite eventsSince_extend. repeat split.
    intros [H|[]]. discriminate H.
  - rewrite Hd. simpl.
    change (emit EvDestroy (emit EvLogout w)) with
      (extend [EvDestroy] (extend [EvLogout] w)).
    rewrite extend_extend, eventsSince_extend. repeat split.
    + intros [H|[H|[]]]; discriminate H.
    + intros H. discriminate H.
Qed.

Lemma X22_witness_teardown_fails :
  fst (postLogout flakyClient readyWorld)
  = mkResponse 500 (BodyFailure "Gagal logout" (Some (JStr "Target closed")))
  /\ clientReady (snd (postLogout flakyClient readyWorld)) = true
  /\ qrCodeData (snd (postLogout flakyClient readyWorld)) = None
  /\ sessionFolder (snd (postLogout flakyClient readyWorld)) = true
  /\ ~ In (EvScheduleInit 2000)
          (eventsSince readyWorld (snd (postLogout flakyClient readyWorld)))
  /\ (logout flakyClient (history readyWorld) = Throws (JStr "Target closed") ->
      eventsSince readyWorld (snd (postLogout flakyClient readyWorld))
      = [EvLogout]).
Proof.
  apply (X22_failed_logout_changes_nothing flakyClient readyWorld
           (JStr "Target closed")); [reflexivity|].
  right. split; reflexivity.
Defined.

(** X23: when there is a client and both [logout] and [destroy] succeed,
    POST /api/logout answers 200, sets [clientReady] to false, clears the QR
    code and schedules the re-initialization in 2000 ms, after exactly the
    two calls. Unlike clear-session it leaves the session folder on disk.
    When there is no client it answers 200 and does nothing. *)
Theorem X23_logout_resets_and_keeps_the_folder ext w :
  (client w = true ->
   logout ext (history w) = Returns tt ->
   destroy ext (history w ++ [EvLogout]) = Returns tt ->
   postLogout ext w
   = (mkResponse 200
        (BodyDone "Logout berhasil. QR Code baru akan tersedia dalam beberapa saat."),
      mkWorld None true false (sessionFolder w)
        (history w ++ [EvLogout; EvDestroy; EvScheduleInit 2000])))
  /\ (client w = false ->
      postLogout ext w
      = (mkResponse 200
           (BodyDone "Logout berhasil. QR Code baru akan tersedia dalam beberapa saat."),
         w)).
Proof.
  split.
  - intros Hc Hl Hd. destruct w as [q c r f h]. simpl in *. subst c.
    unfold postLogout, respond, bind, call, scheduleInit, ret, emit,
      setQrCodeData, setClientReady.
    simpl. rewrite Hl. simpl. rewrite Hd. simpl.
    rewrite <- !app_assoc. reflexivity.
  - intros Hc. unfold postLogout, respond, bind, ret. rewrite Hc. reflexivity.
Qed.

Lemma X23_witness_logout_when_ready :
  postLogout registeredClient readyWorld
  = (mkResponse 200
       (BodyDone "Logout berhasil. QR Code baru akan tersedia dalam beberapa saat."),
     mkWorld None true false true [EvLogout; EvDestroy; EvScheduleInit 2000])
  /\ postLogout registeredClient (mkWorld None false false true [])
     = (mkResponse 200
          (BodyDone "Logout berhasil. QR Code baru akan tersedia dalam beberapa saat."),
        mkWorld None false false true []).
Proof.
  split.
  - apply (proj1 (X23_logout_resets_and_keeps_the_folder registeredClient
                    readyWorld)); reflexivity.
  - apply (proj2 (X23_logout_resets_and_keeps_the_folder registeredClient
                    (mkWorld None false false true []))); reflexivity.
Defined.

Lemma eventsSince_mk q c r f h q' c' r' f' evs :
  eventsSince (mkWorld q c r f h) (mkWorld q' c' r' f' (h ++ evs)) = evs.
Proof.
  unfold eventsSince. simpl. rewrite skipn_app, skipn_all, Nat.sub_diag.
  reflexivity.
Qed.

(** Unfolds clear-session on a world given by its fields and splits on
    everything the collaborators can answer. *)
Ltac run_clear_session ext w :=
  destruct w as [?q c ?r f h];
  unfold postClearSession, respond, bind, tryCatch, call, scheduleInit, ret, emit,
    setQrCodeData, setClientReady, setSessionFolder;
  destruct c; simpl; [destruct (destroy ext h) as [?u|?e]; simpl|];
  (destruct f; simpl; [destruct (rmSync ext _) as [?u|?e] eqn:?Erm; simpl|]);
  rewrite <- ?app_assoc, ?eventsSince_mk.

(** X24: POST /api/clear-session resets the session state on every path:
    whatever the teardown and the file system do, [clientReady] is false and
    the QR code is gone afterwards, and [client.logout()] is never called.
    It answers 500 exactly when the session folder exists and its removal
    throws; in that case the folder stays and no re-initialization is
    scheduled. Otherwise it answers 200, the folder is gone and the
    re-initialization in 2000 ms is the last thing it did. *)
Theorem X24_clear_session_always_resets ext w :
  let r := postClearSession ext w in
  let evs := eventsSince w (snd r) in
  clientReady (snd r) = false
  /\ qrCodeData (snd r) = None
  /\ ~ In EvLogout evs
  /\ (status (fst r) = 500 <->
      sessionFolder w = true
      /\ exists e,
           rmSync ext (history w ++ (if client w then [EvDestroy] else []))
           = Throws e)
  /\ (status (fst r) = 500 ->
      sessionFolder (snd r) = true /\ ~ In (EvScheduleInit 2000) evs)
  /\ (status (fst r) <> 500 ->
      status (fst r) = 200
      /\ sessionFolder (snd r) = false
      /\ exists before, evs = (before ++ [EvScheduleInit 2000])%list).
Proof.
  cbv zeta. run_clear_session ext w; rewrite ?app_nil_r in *;
    repeat match goal with
           | |- _ /\ _ => split
           | |- _ <-> _ => split
           | |- ~ _ => intros ?H
           | |- _ -> _ => intros ?H
           | H : In _ _ |- _ => simpl in H
           | H : _ \/ _ |- _ => destruct H
           | H : _ /\ _ |- _ => destruct H
           | H : exists _, _ |- _ => destruct H
           | H : False |- _ => destruct H
           | H : ?a <> ?a |- _ => contradiction H; reflexivity
           | |- exists e, Throws ?x = Throws e => exists x; reflexivity
           | |- exists before, [?a] = (before ++ [?a])%list =>
               exists []; reflexivity
           | |- exists before, _ = (before ++ [_])%list =>
               eexists; rewrite ?app_assoc; reflexivity
           | |- exists e, rmSync _ _ = Throws e => eexists; eassumption
           | _ => reflexivity || discriminate || congruence
           end.
Qed.

Lemma X24_witness_removal_fails :
  clientReady (snd (postClearSession
                      (mkExternals (fun _ _ => Returns JNull) sendOk
                         (fun _ => Returns tt) (fun _ => Returns tt)
                         (fun _ => Throws (JStr "EPERM: operation not permitted"))
                         (fun qr => Returns qr))
                      readyWorld)) = false
  /\ status (fst (postClearSession
                    (mkExternals (fun _ _ => Returns JNull) sendOk
                       (fun _ => Returns tt) (fun _ => Returns tt)
                       (fun _ => Throws (JStr "EPERM: operation not permitted"))
                       (fun qr => Returns qr))
                    readyWorld)) = 500
  /\ sessionFolder (snd (postClearSession
                           (mkExternals (fun _ _ => Returns JNull) sendOk
                              (fun _ => Returns tt) (fun _ => Returns tt)
                              (fun _ => Throws (JStr "EPERM: operation not permitted"))
                              (fun qr => Returns qr))
                           readyWorld)) = true
  /\ status (fst (postClearSession registeredClient readyWorld)) = 200
  /\ sessionFolder (snd (postClearSession registeredClient readyWorld)) = false.
Proof.
  pose proof (X24_clear_session_always_resets
                (mkExternals (fun _ _ => Returns JNull) sendOk
                   (fun _ => Returns tt) (fun _ => Returns tt)
                   (fun _ => Throws (JStr "EPERM: operation not permitted"))
                   (fun qr => Returns qr))
                readyWorld) as (Hr & _ & _ & H500 & Hfail & _).
  pose proof (X24_clear_session_always_resets registeredClient readyWorld)
    as (_ & _ & _ & _ & _ & Hok).
  split; [exact Hr|].
  split; [apply (proj2 H500); split; [reflexivity | eexists; reflexivity]|].
  split; [apply Hfail; reflexivity|].
  split; apply Hok; discriminate.
Defined.

Lemma X11_witness_three_rejections :
  status (fst (postSendBatchMessage registeredClient (JArr [JStr "628111"])
                 (JStr "hi") None startWorld)) = 400
  /\ status (fst (postSendBatchMessage registeredClient (JArr []) (JStr "hi")
                    None readyWorld)) = 400
  /\ status (fst (postSendBatchMessage registeredClient
                    (JArr [JStr "628111"; JStr "628222"]) JUndefined None
                    readyWorld)) = 400
  /\ snd (postSendBatchMessage registeredClient
            (JArr [JStr "628111"; JStr "628222"]) JUndefined None readyWorld)
     = readyWorld.
Proof.
  split; [|split; [|split]].
  - apply (proj2 (proj1 (X11_batch_400_fails_fast registeredClient
                           (JArr [JStr "628111"]) (JStr "hi") None startWorld))).
    left. reflexivity.
  - apply (proj2 (proj1 (X11_batch_400_fails_fast registeredClient
                           (JArr []) (JStr "hi") None readyWorld))).
    right. left. discriminate.
  - apply (proj2 (proj1 (X11_batch_400_fails_fast registeredClient
                           (JArr [JStr "628111"; JStr "628222"]) JUndefined None
                           readyWorld))).
    right. right. eexists. repeat split; reflexivity.
  - apply (proj2 (X11_batch_400_fails_fast registeredClient
                    (JArr [JStr "628111"; JStr "628222"]) JUndefined None
                    readyWorld)).
    reflexivity.
Defined.

Lemma clearSession_leaves_not_ready ext w :
  clientReady (snd (postClearSession ext w)) = false
  /\ qrCodeData (snd (postClearSession ext w)) = None.
Proof. run_clear_session ext w; split; reflexivity. Qed.

(** X25: after POST /api/clear-session, however it went, the service is
    closed until the next ready signal: /api/send-message and
    /api/send-batch-message answer the not-connected 400 without calling the
    client, /api/status reports disconnected without a code, and
    /api/qrcode answers 404. *)
Theorem X25_nothing_is_sent_after_clear_session
    ext number message recipients delay accept w :
  let w' := snd (postClearSession ext w) in
  postSendMessage ext number message w'
  = (mkResponse 400 (BodyFailure notConnected None), w')
  /\ postSendBatchMessage ext recipients message delay w'
     = (mkResponse 400 (BodyFailure notConnected None), w')
  /\ getStatus w' = mkStatusAnswer "disconnected" false notConnected false
  /\ getQrcode accept w' = QrNotReady.
Proof.
  cbv zeta.
  destruct (clearSession_leaves_not_ready ext w) as [Hr Hq].
  unfold postSendMessage, postSendBatchMessage, getStatus, getQrcode, hasQr.
  rewrite Hr, Hq. repeat split.
Qed.
